(** * design_mesh backend: the model lifecycle of [backend/run.py]

    A shallow embedding of the Flask service in [src/backend/run.py]:
    the module globals [MODEL_DIR], [pipe], [current_model] and
    [current_model_path], the helpers [list_models], [download_model] and
    [load_model], and the views [select], [load_from_path] and [generate].

    The file system, the remote HTTP server, the diffusion engine and the
    imaging library are external to the script.  The file system is a
    concrete finite structure; the other three are collected in the
    [Runtime] interface and every definition is parametric in it. *)

From Stdlib Require Import List String Ascii Bool ZArith Lia.
From Stdlib.Strings Require Import Byte.
Import ListNotations.
Set Warnings "-register-all".
Local Open Scope string_scope.
Local Open Scope list_scope.

(* ================================================================== *)
(** ** Python values that reach the script *)

(** Exceptions, by class; [str(e)] is the message. *)
Inductive exn_kind :=
| FileNotFoundError
| IsADirectoryError
| TypeError
| AttributeError
| IndexError
| RequestException
| EngineError.

Record exn := Exn { exn_class : exn_kind; exn_str : string }.

Inductive result (A : Type) :=
| Ok (a : A)
| Raise (e : exn).
Arguments Ok {A} a.
Arguments Raise {A} e.

(** What [request.get_json()] hands to a view.  Numbers are kept as
    integers: only their truth value is ever inspected. *)
Inductive json :=
| JNull
| JBool (b : bool)
| JNum (n : Z)
| JStr (s : string)
| JArr (items : list json)
| JObj (fields : list (string * json)).

(** Python truthiness, as used by [if not x]. *)
Definition truthy (v : json) : bool :=
  match v with
  | JNull => false
  | JBool b => b
  | JNum n => negb (Z.eqb n 0)
  | JStr s => negb (String.eqb s "")
  | JArr l => match l with [] => false | _ => true end
  | JObj l => match l with [] => false | _ => true end
  end.

Fixpoint assoc {A : Type} (k : string) (l : list (string * A)) : option A :=
  match l with
  | [] => None
  | (k', v) :: r => if String.eqb k k' then Some v else assoc k r
  end.

Definition has_key {A : Type} (k : string) (l : list (string * A)) : bool :=
  match assoc k l with Some _ => true | None => false end.

(** [data.get(key, default)].  The attribute [get] is looked up on [data]
    first, then the argument expressions are evaluated, then the call is
    made: a default that raises does so whether or not the key is there. *)
Definition dict_get (data : json) (key : string) (default : result json)
  : result json :=
  match data with
  | JObj kv =>
      match default with
      | Raise e => Raise e
      | Ok d => Ok (match assoc key kv with Some v => v | None => d end)
      end
  | _ => Raise (Exn AttributeError "object has no attribute 'get'")
  end.

(* ================================================================== *)
(** ** [os.path] on POSIX path strings *)

Definition slash : ascii := "/"%char.

Fixpoint has_slash (p : string) : bool :=
  match p with
  | EmptyString => false
  | String c r => Ascii.eqb c slash || has_slash r
  end.

Fixpoint all_slashes (p : string) : bool :=
  match p with
  | EmptyString => true
  | String c r => Ascii.eqb c slash && all_slashes r
  end.

(** [p.rstrip('/')]. *)
Fixpoint rstrip_slash (p : string) : string :=
  match p with
  | EmptyString => EmptyString
  | String c r =>
      if Ascii.eqb c slash && all_slashes r then EmptyString
      else String c (rstrip_slash r)
  end.

(** [(p[:i], p[i:])] with [i = p.rfind('/') + 1]. *)
Fixpoint rsplit_slash (p : string) : string * string :=
  match p with
  | EmptyString => (EmptyString, EmptyString)
  | String c r =>
      if has_slash r then
        let (h, t) := rsplit_slash r in (String c h, t)
      else if Ascii.eqb c slash then (String c EmptyString, r)
      else (EmptyString, String c r)
  end.

(** [os.path.split]. *)
Definition os_path_split (p : string) : string * string :=
  let (head, tail) := rsplit_slash p in
  if negb (String.eqb head "") && negb (all_slashes head)
  then (rstrip_slash head, tail)
  else (head, tail).

Definition os_path_basename (p : string) : string := snd (rsplit_slash p).
Definition os_path_dirname (p : string) : string := fst (os_path_split p).

Definition starts_with_slash (p : string) : bool :=
  match p with
  | String c _ => Ascii.eqb c slash
  | EmptyString => false
  end.

Fixpoint ends_with_slash (p : string) : bool :=
  match p with
  | EmptyString => false
  | String c EmptyString => Ascii.eqb c slash
  | String _ r => ends_with_slash r
  end.

(** [os.path.join(a, b)] for two components. *)
Definition os_path_join (a b : string) : string :=
  if starts_with_slash b then b
  else if String.eqb a "" || ends_with_slash a then a ++ b
  else a ++ "/" ++ b.

(** The same two functions applied to a value that came out of JSON:
    [os.fspath] rejects everything that is not a string. *)
Definition py_basename (v : json) : result json :=
  match v with
  | JStr s => Ok (JStr (os_path_basename s))
  | _ => Raise (Exn TypeError "expected str, bytes or os.PathLike object")
  end.

Definition py_join (a : string) (v : json) : result string :=
  match v with
  | JStr s => Ok (os_path_join a s)
  | _ => Raise (Exn TypeError "expected str, bytes or os.PathLike object")
  end.

(* ================================================================== *)
(** ** The file system

    Paths are compared as strings (no symbolic links, no [..]): the disk
    holds each path under one spelling, and a statement about a path
    spelled otherwise is outside the model.  [files] is kept in the
    order in which the operating system enumerates entries; that a new
    file goes to the end (rewriting a file keeps its place) is a choice
    of the model, the system may put it anywhere.  A listing shows the
    files of a directory, not its subdirectories.  The working directory
    is the path [""] and always exists. *)

Definition bytes := list byte.

Record FS := mkFS {
  dirs  : list string;
  files : list (string * bytes)
}.

Definition mem_str (s : string) (l : list string) : bool :=
  existsb (String.eqb s) l.

Definition is_dir (fs : FS) (p : string) : bool := mem_str p (dirs fs).
Definition is_file (fs : FS) (p : string) : bool := has_key p (files fs).

(** [os.path.exists]. *)
Definition os_path_exists (fs : FS) (p : string) : bool :=
  is_dir fs p || is_file fs p.

Definition read_file (fs : FS) (p : string) : option bytes :=
  assoc p (files fs).

Fixpoint put (p : string) (c : bytes) (l : list (string * bytes))
  : list (string * bytes) :=
  match l with
  | [] => [(p, c)]
  | (q, d) :: r => if String.eqb p q then (q, c) :: r else (q, d) :: put p c r
  end.

Definition write_file (fs : FS) (p : string) (c : bytes) : FS :=
  mkFS (dirs fs) (put p c (files fs)).

(** [open(p, 'wb')]: creates or truncates. *)
Definition open_wb (fs : FS) (p : string) : result FS :=
  if is_dir fs p then Raise (Exn IsADirectoryError p)
  else
    let d := os_path_dirname p in
    if String.eqb d "" || is_dir fs d then Ok (write_file fs p [])
    else Raise (Exn FileNotFoundError p).

(** [f.write(chunk)] on a file opened by [open_wb]. *)
Definition append_file (fs : FS) (p : string) (chunk : bytes) : FS :=
  match read_file fs p with
  | Some c => write_file fs p (c ++ chunk)
  | None => write_file fs p chunk
  end.

(** [os.scandir(d)], names only: the entries whose parent is [d]. *)
Definition listdir (fs : FS) (d : string) : list string :=
  flat_map (fun e => let (h, t) := os_path_split (fst e) in
                     if String.eqb h d then [t] else [])
           (files fs).

(* ================================================================== *)
(** ** [fnmatch] and [glob]

    Shell patterns with [*] and [?]; bracket classes are not modelled
    (the only pattern of the script, [*.safetensors], has none).
    POSIX: matching is case sensitive. *)

Definition star : ascii := "*"%char.
Definition qmark : ascii := "?"%char.
Definition lbracket : ascii := "["%char.
Definition dot : ascii := "."%char.

Fixpoint fnmatch (pat name : string) : bool :=
  match pat with
  | EmptyString => String.eqb name ""
  | String c pat' =>
      if Ascii.eqb c star then
        (fix any_suffix (s : string) : bool :=
           fnmatch pat' s ||
           match s with
           | EmptyString => false
           | String _ s' => any_suffix s'
           end) name
      else
        match name with
        | EmptyString => false
        | String d name' =>
            (Ascii.eqb c qmark || Ascii.eqb c d) && fnmatch pat' name'
        end
  end.

(** [glob.has_magic]: does the text contain one of [*?[]. *)
Fixpoint has_magic (s : string) : bool :=
  match s with
  | EmptyString => false
  | String c r =>
      Ascii.eqb c star || Ascii.eqb c qmark || Ascii.eqb c lbracket
      || has_magic r
  end.

(** [glob._ishidden]. *)
Definition ishidden (name : string) : bool :=
  match name with
  | String c _ => Ascii.eqb c dot
  | EmptyString => false
  end.

(** [glob._glob1]: the entries of one directory that match a pattern. *)
Definition glob1 (fs : FS) (dirname pattern : string) : list string :=
  let names := listdir fs dirname in
  let names := if ishidden pattern then names
               else filter (fun x => negb (ishidden x)) names in
  filter (fnmatch pattern) names.

(** [glob._glob0]: a literal last component. *)
Definition glob0 (fs : FS) (dirname basename : string) : list string :=
  if String.eqb basename "" then
    if is_dir fs dirname then [basename] else []
  else
    if os_path_exists fs (os_path_join dirname basename) then [basename]
    else [].

(* ================================================================== *)
(** ** The external collaborators *)

(** What the engine may hand back for one image: an object with a [save]
    method, one with a [cpu] method, a numeric array, or anything else. *)
Inductive image_obj (P T A : Type) :=
| ImgPicture (p : P)
| ImgTensor (t : T)
| ImgArray (a : A)
| ImgOther.
Arguments ImgPicture {P T A} p.
Arguments ImgTensor {P T A} t.
Arguments ImgArray {P T A} a.
Arguments ImgOther {P T A}.

(** The value of [pipe(prompt)]: a tuple, or a single object. *)
Inductive pipe_output (P T A : Type) :=
| OutTuple (items : list (image_obj P T A))
| OutObject (o : image_obj P T A).
Arguments OutTuple {P T A} items.
Arguments OutObject {P T A} o.

(** The answer of the remote server to [requests.get(url, stream=True)]
    followed by [iter_content]: the connection fails, or a response
    arrives whose body comes in chunks and may break off with an error
    after some of them.  The script never looks at the status code. *)
Inductive http_outcome :=
| ConnectionFailed (e : exn)
| Response (status_code : nat) (chunks : list bytes) (broken : option exn).

Class Runtime := {
  Handle  : Type;
  Picture : Type;
  Tensor  : Type;
  Array   : Type;
  (** [StableDiffusionPipeline.from_single_file(path, ...).to("cuda")] *)
  from_single_file : FS -> string -> result Handle;
  (** [pipe(prompt)] *)
  run_pipeline : Handle -> json -> result (pipe_output Picture Tensor Array);
  (** [t.cpu().numpy()], [a.astype('uint8')], [Image.fromarray(a)] *)
  cpu_numpy : Tensor -> result Array;
  astype_uint8 : Array -> result Array;
  fromarray : Array -> result Picture;
  (** the PNG encoding written by [image.save] *)
  png_encode : Picture -> bytes;
  (** [requests.get] *)
  http_get : string -> http_outcome;
  (** the directories a directory pattern with wildcards expands to
      (the recursive call of [glob._iglob]) *)
  glob_dirs : FS -> string -> list string
}.

Section Backend.
Context {RT : Runtime}.

(** [glob.glob(pathname)], non-recursive. *)
Definition glob (fs : FS) (pathname : string) : list string :=
  let (dirname, basename) := os_path_split pathname in
  if negb (has_magic pathname) then
    if String.eqb basename "" then
      if is_dir fs dirname then [pathname] else []
    else
      if os_path_exists fs pathname then [pathname] else []
  else if String.eqb dirname "" then
    glob1 fs "" basename
  else
    let ds := if negb (String.eqb dirname pathname) && has_magic dirname
              then glob_dirs fs dirname
              else [dirname] in
    flat_map
      (fun d => map (os_path_join d)
                    (if has_magic basename then glob1 fs d basename
                     else glob0 fs d basename))
      ds.

(* ================================================================== *)
(** ** The state of the process and of its surroundings *)

Record World := mkWorld {
  MODEL_DIR : string;
  pipe : option Handle;                (* [None] until a load succeeds *)
  current_model : json;                (* [JNull] is Python's [None] *)
  current_model_path : option string;
  disk : FS;
  sent : list string                   (* URLs requested so far *)
}.

Definition set_pipe (h : option Handle) (w : World) : World :=
  mkWorld (MODEL_DIR w) h (current_model w) (current_model_path w)
          (disk w) (sent w).
Definition set_current_model (n : json) (w : World) : World :=
  mkWorld (MODEL_DIR w) (pipe w) n (current_model_path w) (disk w) (sent w).
Definition set_current_model_path (p : option string) (w : World) : World :=
  mkWorld (MODEL_DIR w) (pipe w) (current_model w) p (disk w) (sent w).
Definition set_disk (fs : FS) (w : World) : World :=
  mkWorld (MODEL_DIR w) (pipe w) (current_model w) (current_model_path w)
          fs (sent w).
Definition log_request (url : string) (w : World) : World :=
  mkWorld (MODEL_DIR w) (pipe w) (current_model w) (current_model_path w)
          (disk w) (sent w ++ [url]).

(** Computations that read and write the world and may raise; what was
    written before an exception stays written. *)
Definition M (A : Type) : Type := World -> result A * World.

Definition ret {A} (a : A) : M A := fun w => (Ok a, w).
Definition raise {A} (e : exn) : M A := fun w => (Raise e, w).
Definition bind {A B} (m : M A) (k : A -> M B) : M B :=
  fun w => match m w with
           | (Ok a, w') => k a w'
           | (Raise e, w') => (Raise e, w')
           end.
Definition lift {A} (r : result A) : M A := fun w => (r, w).
Definition read {A} (f : World -> A) : M A := fun w => (Ok (f w), w).
Definition modify (f : World -> World) : M unit := fun w => (Ok tt, f w).

Notation "x <- m ;; k" := (bind m (fun x => k))
  (at level 61, m at next level, right associativity).
Notation "m ;;; k" := (bind m (fun _ => k))
  (at level 61, right associativity).

(* ================================================================== *)
(** ** [run.py]: helpers *)

(** [list_models()] *)
Definition list_models (w : World) : list string :=
  map os_path_basename (glob (disk w) (MODEL_DIR w ++ "/*.safetensors")).

(** The [for chunk in r.iter_content(...)] loop: one [f.write] per chunk. *)
Definition write_chunks (local_path : string) (chunks : list bytes) : M unit :=
  modify (fun w =>
    set_disk (fold_left (fun fs c => append_file fs local_path c)
                        chunks (disk w)) w).

(** [download_model(url, filename, model_dir=None)] *)
Definition download_model (url filename : string) (model_dir : option string)
  : M string :=
  dir <- read (fun w => match model_dir with
                        | None => MODEL_DIR w
                        | Some d => d
                        end) ;;
  let local_path := os_path_join dir filename in
  present <- read (fun w => os_path_exists (disk w) local_path) ;;
  (if negb present then
     modify (log_request url) ;;;
     match http_get url with
     | ConnectionFailed e => raise e
     | Response _ chunks broken =>
         fs <- read disk ;;
         fs' <- lift (open_wb fs local_path) ;;
         modify (set_disk fs') ;;;
         write_chunks local_path chunks ;;;
         match broken with
         | Some e => raise e
         | None => ret tt
         end
     end
   else ret tt) ;;;
  ret local_path.

(** [if model_path:] on an optional string. *)
Definition path_given (model_path : option string) : option string :=
  match model_path with
  | Some p => if String.eqb p "" then None else Some p
  | None => None
  end.

(** Lines 49-58 of [load_model]: which file is to be loaded. *)
Definition resolve_model_path (model_name : json) (model_path : option string)
  : M string :=
  match path_given model_path with
  | Some p =>
      present <- read (fun w => os_path_exists (disk w) p) ;;
      if negb present
      then raise (Exn FileNotFoundError ("Model path " ++ p ++ " not found."))
      else ret p
  | None =>
      dir <- read MODEL_DIR ;;
      full <- lift (py_join dir model_name) ;;
      present <- read (fun w => os_path_exists (disk w) full) ;;
      if negb present
      then raise (Exn FileNotFoundError
                    (match model_name with
                     | JStr n => "Model " ++ n ++ " not found in " ++ dir ++ "."
                     | _ => ""
                     end))
      else ret full
  end.

(** [load_model(model_name, model_path=None)] *)
Definition load_model (model_name : json) (model_path : option string)
  : M unit :=
  full_model_path <- resolve_model_path model_name model_path ;;
  fs <- read disk ;;
  h <- lift (from_single_file fs full_model_path) ;;
  modify (set_pipe (Some h)) ;;;
  modify (set_current_model model_name) ;;;
  modify (set_current_model_path (Some full_model_path)).

(* ================================================================== *)
(** ** [run.py]: views *)

Inductive body :=
| JsonBody (j : json)
| FileBody (mimetype : string) (content : bytes)
| ErrorPage.

Record response := mkResponse { status : nat; payload : body }.

(** [jsonify({...})] and [jsonify({...}), code] *)
Definition jsonify (fields : list (string * json)) : response :=
  mkResponse 200 (JsonBody (JObj fields)).
Definition jsonify_status (fields : list (string * json)) (code : nat)
  : response :=
  mkResponse code (JsonBody (JObj fields)).

Definition error_json (msg : string) (code : nat) : response :=
  jsonify_status [("error", JStr msg)] code.

(** [try: body except Exception as e: handler(e)] *)
Definition try_except {A} (m : M A) (handler : exn -> M A) : M A :=
  fun w => match m w with
           | (Ok a, w') => (Ok a, w')
           | (Raise e, w') => handler e w'
           end.

(** [POST /select] *)
Definition select (data : json) : M response :=
  model_name <- lift (dict_get data "model" (Ok JNull)) ;;
  try_except
    (load_model model_name None ;;;
     ret (jsonify [("status", JStr "loaded"); ("model", model_name)]))
    (fun e => ret (error_json (exn_str e) 400)).

(** [POST /load_from_path] *)
Definition load_from_path (data : json) : M response :=
  model_path <- lift (dict_get data "path" (Ok JNull)) ;;
  model_name <- lift (dict_get data "name" (py_basename model_path)) ;;
  if negb (truthy model_path) then
    ret (error_json "No model path provided" 400)
  else
    try_except
      (load_model model_name
         (match model_path with JStr p => Some p | _ => None end) ;;;
       ret (jsonify [("status", JStr "loaded"); ("model", model_name);
                     ("path", model_path)]))
      (fun e => ret (error_json (exn_str e) 400)).

Definition image := image_obj Picture Tensor Array.

(** [Image.fromarray(obj)] on whatever [obj] is. *)
Definition fromarray_any (obj : image) : result Picture :=
  match obj with
  | ImgArray a => fromarray a
  | _ => Raise (Exn AttributeError "__array_interface__")
  end.

(** Lines 167-180 of [generate]: the [try] block and its fallback.  The
    fallback converts the value [image] holds when the exception is
    raised: the tensor itself if [cpu().numpy()] failed, the array it
    produced afterwards. *)
Definition to_picture (img : image) : result Picture :=
  match img with
  | ImgPicture p => Ok p
  | ImgTensor t =>
      match cpu_numpy t with
      | Raise _ => fromarray_any (ImgTensor t)
      | Ok a =>
          match astype_uint8 a with
          | Raise _ => fromarray_any (ImgArray a)
          | Ok a' =>
              match fromarray a' with
              | Raise _ => fromarray_any (ImgArray a)
              | Ok p => Ok p
              end
          end
      end
  | ImgArray a =>
      match astype_uint8 a with
      | Raise _ => fromarray_any (ImgArray a)
      | Ok a' =>
          match fromarray a' with
          | Raise _ => fromarray_any (ImgArray a)
          | Ok p => Ok p
          end
      end
  | ImgOther => fromarray_any ImgOther
  end.

(** Lines 161-164: [result[0]] of a tuple, the result itself otherwise. *)
Definition first_image (r : pipe_output Picture Tensor Array) : result image :=
  match r with
  | OutTuple [] => Raise (Exn IndexError "tuple index out of range")
  | OutTuple (x :: _) => Ok x
  | OutObject o => Ok o
  end.

(** [image.save(path)] *)
Definition save_picture (p : Picture) (path : string) : M unit :=
  fs <- read disk ;;
  fs' <- lift (open_wb fs path) ;;
  modify (set_disk (append_file fs' path (png_encode p))).

(** [send_file(path, mimetype=...)].  Flask resolves a relative path
    against the directory of the application; the service is taken to
    run from that directory (as [python run.py] does), so that the path
    names the file [image.save] has just written. *)
Definition send_file (path mimetype : string) : M response :=
  fs <- read disk ;;
  match read_file fs path with
  | Some c => ret (mkResponse 200 (FileBody mimetype c))
  | None => raise (Exn FileNotFoundError path)
  end.

(** [POST /generate] *)
Definition generate (data : json) : M response :=
  p <- read pipe ;;
  match p with
  | None => ret (error_json "No model loaded" 400)
  | Some h =>
      prompt <- lift (dict_get data "prompt" (Ok (JStr ""))) ;;
      if negb (truthy prompt) then
        ret (error_json "No prompt provided" 400)
      else
        let image_path := "output.png" in
        r <- lift (run_pipeline h prompt) ;;
        img <- lift (first_image r) ;;
        pic <- lift (to_picture img) ;;
        save_picture pic image_path ;;;
        send_file image_path "image/png"
  end.

(** What Flask does with a view: an exception that leaves the view
    becomes a 500 response, the process goes on. *)
Definition flask (view : json -> M response) (data : json) (w : World)
  : response * World :=
  match view data w with
  | (Ok r, w') => (r, w')
  | (Raise _, w') => (mkResponse 500 ErrorPage, w')
  end.

(* ================================================================== *)
(** ** [load_model] under concurrent requests

    The script takes no lock.  Python switches threads between bytecode
    instructions, so the three assignments to the globals at the end of
    [load_model] are three separate steps of a thread.  A call of
    [load_model] is cut at exactly these points; everything before the
    first store only reads. *)

Inductive load_pc :=
| AtEntry (model_name : json) (model_path : option string)
| AtEngine (model_name : json) (full_model_path : string)
| AtStorePipe (model_name : json) (full_model_path : string) (h : Handle)
| AtStoreName (model_name : json) (full_model_path : string)
| AtStorePath (full_model_path : string)
| Returned
| Failed (e : exn).

Definition thread_step (pc : load_pc) (w : World) : load_pc * World :=
  match pc with
  | AtEntry n p =>
      match resolve_model_path n p w with
      | (Ok full, w') => (AtEngine n full, w')
      | (Raise e, w') => (Failed e, w')
      end
  | AtEngine n full =>
      match from_single_file (disk w) full with
      | Ok h => (AtStorePipe n full h, w)
      | Raise e => (Failed e, w)
      end
  | AtStorePipe n full h => (AtStoreName n full, set_pipe (Some h) w)
  | AtStoreName n full => (AtStorePath full, set_current_model n w)
  | AtStorePath full => (Returned, set_current_model_path (Some full) w)
  | Returned => (Returned, w)
  | Failed e => (Failed e, w)
  end.

Definition finished (pc : load_pc) : bool :=
  match pc with
  | Returned | Failed _ => true
  | _ => false
  end.

Fixpoint run_thread (fuel : nat) (pc : load_pc) (w : World)
  : load_pc * World :=
  match fuel with
  | O => (pc, w)
  | S k => let (pc', w') := thread_step pc w in run_thread k pc' w'
  end.

(** Two requests in flight over the one world. *)
Record config := mkConfig {
  shared : World;
  thread1 : load_pc;
  thread2 : load_pc
}.

Inductive turn := T1 | T2.

Definition sched_step (t : turn) (c : config) : config :=
  match t with
  | T1 => let (pc, w) := thread_step (thread1 c) (shared c) in
          mkConfig w pc (thread2 c)
  | T2 => let (pc, w) := thread_step (thread2 c) (shared c) in
          mkConfig w (thread1 c) pc
  end.

(** The run chosen by a schedule: one step of the named thread per entry. *)
Definition interleave (sched : list turn) (c : config) : config :=
  fold_left (fun c t => sched_step t c) sched c.

Definition both_finished (c : config) : bool :=
  finished (thread1 c) && finished (thread2 c).

(** Two [/select] requests have just entered [load_model]. *)
Definition two_selects (w : World) (a b : string) : config :=
  mkConfig w (AtEntry (JStr a) None) (AtEntry (JStr b) None).

(** The handle in [pipe] is the one the engine builds from the file the
    recorded path names, and, for a model taken from the model directory,
    the recorded path is the one the recorded name resolves to. *)
Definition handle_matches_descriptor (w : World) : Prop :=
  match pipe w with
  | None => True
  | Some h =>
      exists p, current_model_path w = Some p /\
                from_single_file (disk w) p = Ok h
  end.

Definition name_matches_path (w : World) : Prop :=
  match current_model w, current_model_path w with
  | JStr n, Some p => p = os_path_join (MODEL_DIR w) n
  | JNull, None => True
  | _, _ => False
  end.

(** The phase of the pipeline as the globals show it. *)
Definition ready (w : World) : bool :=
  match pipe w with Some _ => true | None => false end.

End Backend.

Arguments World : clear implicits.
Arguments config : clear implicits.
Arguments load_pc : clear implicits.

(* ================================================================== *)
(** ** Vocabulary of the statements *)

(** [s.endswith(suf)] *)
Fixpoint has_suffix (suf s : string) : bool :=
  String.eqb s suf ||
  match s with
  | EmptyString => false
  | String _ r => has_suffix suf r
  end.

(** A pattern without wildcards. *)
Fixpoint literal (pat : string) : bool :=
  match pat with
  | EmptyString => true
  | String c r =>
      negb (Ascii.eqb c star) && negb (Ascii.eqb c qmark) && literal r
  end.

(** A name [list_models] recognises: not hidden, ending in the model
    extension. *)
Definition recognized (name : string) : bool :=
  negb (ishidden name) && has_suffix ".safetensors" name.

(** The directory [glob] scans for the pattern built from [model_dir]. *)
Definition scanned_dir (model_dir : string) : string :=
  if all_slashes model_dir then model_dir ++ "/" else rstrip_slash model_dir.

(** Ascending in the order Python's [sorted] uses on strings. *)
Fixpoint sorted_names (l : list string) : bool :=
  match l with
  | [] => true
  | a :: r =>
      match r with
      | [] => true
      | b :: _ => String.leb a b && sorted_names r
      end
  end.

(** How far a call of [load_model] has come: the number of steps taken. *)
Definition stage {RT : Runtime} (pc : load_pc RT) : nat :=
  match pc with
  | AtEntry _ _ => 0
  | AtEngine _ _ => 1
  | AtStorePipe _ _ _ => 2
  | AtStoreName _ _ => 3
  | AtStorePath _ => 4
  | Returned => 5
  | Failed _ => 5
  end.

(** The number of steps a schedule gives to a thread. *)
Fixpoint steps_of (t : turn) (sched : list turn) : nat :=
  match sched with
  | [] => 0
  | u :: r =>
      (match t, u with
       | T1, T1 | T2, T2 => 1
       | _, _ => 0
       end) + steps_of t r
  end.

(** The states of a [/select] of [n] that goes well: [full] is the file
    the name resolves to and [h] the handle the engine builds from it. *)
Definition selecting {RT : Runtime}
  (n full : string) (h : Handle) (pc : load_pc RT) : Prop :=
  pc = AtEntry (JStr n) None \/ pc = AtEngine (JStr n) full \/
  pc = AtStorePipe (JStr n) full h \/ pc = AtStoreName (JStr n) full \/
  pc = AtStorePath full \/ pc = Returned.

(** What holds of two such requests at every point of every run from
    the world [w]: each global holds its value in [w] until one of the
    two threads has stored it, and from then on the value one of them
    stored. *)
Definition unguarded_inv {RT : Runtime} (w : World RT)
  (a pa : string) (ha : Handle) (b pb : string) (hb : Handle)
  (c : config RT) : Prop :=
  MODEL_DIR (shared c) = MODEL_DIR w /\
  disk (shared c) = disk w /\
  selecting a pa ha (thread1 c) /\
  selecting b pb hb (thread2 c) /\
  (3 <= stage (thread1 c) \/ 3 <= stage (thread2 c) ->
   pipe (shared c) = Some ha \/ pipe (shared c) = Some hb) /\
  (4 <= stage (thread1 c) \/ 4 <= stage (thread2 c) ->
   current_model (shared c) = JStr a \/ current_model (shared c) = JStr b) /\
  (5 <= stage (thread1 c) \/ 5 <= stage (thread2 c) ->
   current_model_path (shared c) = Some pa \/
   current_model_path (shared c) = Some pb).

(** The request of a load through one of the two endpoints. *)
Inductive endpoint := Select | LoadFromPath.

Definition view_of {RT : Runtime} (ep : endpoint) : json -> M response :=
  match ep with
  | Select => select
  | LoadFromPath => load_from_path
  end.

(** The request makes [load_model] reach the engine with a file that is
    there, and the engine raises [e] on it. *)
Definition engine_rejects {RT : Runtime}
  (ep : endpoint) (data : json) (w : World RT) (e : exn) : Prop :=
  match ep with
  | Select =>
      exists kv n,
        data = JObj kv /\ assoc "model" kv = Some (JStr n) /\
        os_path_exists (disk w) (os_path_join (MODEL_DIR w) n) = true /\
        from_single_file (disk w) (os_path_join (MODEL_DIR w) n) = Raise e
  | LoadFromPath =>
      exists kv p,
        data = JObj kv /\ assoc "path" kv = Some (JStr p) /\ p <> "" /\
        os_path_exists (disk w) p = true /\
        from_single_file (disk w) p = Raise e
  end.

(** The path [download_model] writes to: [os.path.join(model_dir,
    filename)], the directory defaulting to [MODEL_DIR]. *)
Definition target_of {RT : Runtime} (w : World RT) (filename : string)
           (model_dir : option string) : string :=
  os_path_join (match model_dir with
                | None => MODEL_DIR w
                | Some d => d
                end) filename.

(** The value [generate] reads as the prompt. *)
Definition prompt_of (kv : list (string * json)) : json :=
  match assoc "prompt" kv with
  | Some v => v
  | None => JStr ""
  end.

(* ================================================================== *)
(** ** A small concrete surrounding, for running the definitions *)

Module Example.

Definition b (s : string) : bytes := list_byte_of_string s.

Definition broken_pipe : exn := Exn RequestException "connection broken".
Definition bad_weights : exn := Exn EngineError "not a safetensors file".

(** The engine accepts the files that start with the letter S; a handle
    remembers the file it was built from.  Images are their own bytes. *)
Definition engine (fs : FS) (path : string) : result string :=
  match read_file fs path with
  | Some (x53 :: _) => Ok path
  | _ => Raise bad_weights
  end.

Definition server (url : string) : http_outcome :=
  if String.eqb url "http://x/m.bin" then
    Response 200 [b "SD"; b "weights"] None
  else if String.eqb url "http://x/cut.bin" then
    Response 200 [b "SD"] (Some broken_pipe)
  else if String.eqb url "http://x/gone.bin" then
    Response 404 [b "Not Found"] None
  else
    ConnectionFailed (Exn RequestException "no route to host").

#[export] Instance rt : Runtime := {|
  Handle := string;
  Picture := bytes;
  Tensor := bytes;
  Array := bytes;
  from_single_file := engine;
  run_pipeline := fun _ _ => Ok (OutObject (ImgPicture (b "PNG")));
  cpu_numpy := fun t => Ok t;
  astype_uint8 := fun a => Ok a;
  fromarray := fun a => Ok a;
  png_encode := fun p => p;
  http_get := server;
  glob_dirs := fun _ _ => []
|}.

(** [/m] holds two models, listed by the system in the order [b], [a],
    and one file the engine will not take. *)
Definition fs0 : FS :=
  mkFS ["/m"]
       [("/m/b.safetensors", b "Sb");
        ("/m/a.safetensors", b "Sa");
        ("/m/junk.safetensors", b "??")].

(** Just started: nothing loaded. *)
Definition w0 : World rt := mkWorld "/m" None JNull None fs0 [].

(** After [a.safetensors] was selected. *)
Definition w_a : World rt :=
  mkWorld "/m" (Some "/m/a.safetensors") (JStr "a.safetensors")
          (Some "/m/a.safetensors") fs0 [].

Definition req (fields : list (string * json)) : json := JObj fields.

Definition select_junk : json := req [("model", JStr "junk.safetensors")].
Definition empty_prompt : json := req [("prompt", JStr "")].
Definition cat_prompt : json := req [("prompt", JStr "a cat")].

(** Two [/select] requests at once, for [a] and for [b]. *)
Definition race : config rt := two_selects w0 "a.safetensors" "b.safetensors".

(** The first request stores its handle, the second runs from entry to
    return, the first stores its name and its path. *)
Definition overtaking : list turn :=
  [T1; T1; T1; T2; T2; T2; T2; T2; T1; T1].

End Example.

(* ================================================================== *)
(** ** The rest of [run.py]: directories, [/models], [/set_model_dir],
       [/download] *)

(** [os.mkdir] and [os.makedirs] fail with an [OSError]; these are the
    three that can occur here: [FileExistsError], [NotADirectoryError]
    and [FileNotFoundError]. *)
Inductive os_error := EEXIST | ENOTDIR | ENOENT.

(** The system ignores trailing slashes in the name of a directory. *)
Definition resolve_dir (p : string) : string :=
  if all_slashes p then p else rstrip_slash p.

(** [os.path.isdir] *)
Definition os_path_isdir (fs : FS) (p : string) : bool :=
  is_dir fs (resolve_dir p).

(** [os.mkdir(name)]: the path must be free and its parent a directory.
    A new directory goes to the end of [dirs]. *)
Definition mkdir (fs : FS) (name : string) : os_error + FS :=
  let target := resolve_dir name in
  if String.eqb target "" then inl ENOENT
  else if os_path_exists fs target then inl EEXIST
  else
    let parent := os_path_dirname target in
    if String.eqb parent "" || is_dir fs parent
    then inr (mkFS (dirs fs ++ [target]) (files fs))
    else if is_file fs parent then inl ENOTDIR
    else inl ENOENT.

(** The [(head, tail)] that [os.makedirs] works with: [split(name)], and
    [split(head)] once more when the name ends in a slash. *)
Definition makedirs_parts (name : string) : string * string :=
  let (head, tail) := os_path_split name in
  if String.eqb tail "" then os_path_split head else (head, tail).

(** The last two statements of [os.makedirs(name, exist_ok=True)]:
    [mkdir], whose failure is forgiven when the directory is there. *)
Definition mkdir_exist_ok (fs : FS) (name : string) : option os_error * FS :=
  match mkdir fs name with
  | inr fs' => (None, fs')
  | inl e => if os_path_isdir fs name then (None, fs) else (Some e, fs)
  end.

(** [os.makedirs(name, exist_ok=True)].  It calls itself on [head], a
    shorter string, so the length of the name bounds the depth of the
    recursion; [depth] is that bound.  The result is the error raised, if
    any, and the file system as the call leaves it: directories made
    before a failure stay. *)
Fixpoint makedirs_upto (depth : nat) (fs : FS) (name : string)
  : option os_error * FS :=
  match depth with
  | O => mkdir_exist_ok fs name
  | S d =>
      let (head, tail) := makedirs_parts name in
      if negb (String.eqb head "") && negb (String.eqb tail "")
         && negb (os_path_exists fs head)
      then
        match makedirs_upto d fs head with
        | (Some EEXIST, fs1) | (None, fs1) =>
            if String.eqb tail "." then (None, fs1)
            else mkdir_exist_ok fs1 name
        | (Some e, fs1) => (Some e, fs1)
        end
      else mkdir_exist_ok fs name
  end.

Definition makedirs (fs : FS) (name : string) : option os_error * FS :=
  makedirs_upto (String.length name) fs name.

Section MoreViews.
Context {RT : Runtime}.

Notation "x <- m ;; k" := (bind m (fun x => k))
  (at level 61, m at next level, right associativity).

Definition set_MODEL_DIR (d : string) (w : World RT) : World RT :=
  mkWorld d (pipe w) (current_model w) (current_model_path w)
          (disk w) (sent w).

Definition json_of_option (o : option string) : json :=
  match o with
  | Some s => JStr s
  | None => JNull
  end.

(** [GET /models] *)
Definition models (_ : json) : M response :=
  fun w =>
    (Ok (jsonify [("models", JArr (map JStr (list_models w)));
                  ("current", current_model w);
                  ("model_dir", JStr (MODEL_DIR w));
                  ("current_model_path",
                   json_of_option (current_model_path w))]),
     w).

(** What can leave a view that has no [try]: a Python exception of the
    kinds above, or the [OSError] of a directory operation. *)
Inductive escaped :=
| PyError (e : exn)
| OSError (errno : os_error).

(** [POST /set_model_dir] *)
Definition set_model_dir (data : json) (w : World RT)
  : (response + escaped) * World RT :=
  match dict_get data "directory" (Ok JNull) with
  | Raise e => (inr (PyError e), w)
  | Ok new_dir =>
      if negb (truthy new_dir) then
        (inl (error_json "No directory provided" 400), w)
      else
        match new_dir with
        | JStr d =>
            match makedirs (disk w) d with
            | (Some errno, fs') => (inr (OSError errno), set_disk fs' w)
            | (None, fs') =>
                (inl (jsonify
                        [("status", JStr "updated");
                         ("model_dir", JStr d);
                         ("message",
                          JStr ("Model directory updated to " ++ d))]),
                 set_MODEL_DIR d (set_disk fs' w))
            end
        | _ =>
            (inr (PyError
                    (Exn TypeError
                         "expected str, bytes or os.PathLike object")), w)
        end
  end.

(** Flask on such a view: whatever leaves it becomes a 500. *)
Definition flask_os (view : json -> World RT -> (response + escaped) * World RT)
           (data : json) (w : World RT) : response * World RT :=
  match view data w with
  | (inl r, w') => (r, w')
  | (inr _, w') => (mkResponse 500 ErrorPage, w')
  end.

(** [download_model] on the values the view passes in, which come out of
    JSON.  [os.path.join] raises [TypeError] unless directory and file
    name are strings; [requests.get] is only reached, and only then
    rejects a URL that is not a string, when the target is missing. *)
Definition download_model_py (url filename model_dir : json) : M string :=
  dir <- match model_dir with
         | JNull => read (fun w => JStr (MODEL_DIR w))
         | d => ret d
         end ;;
  match dir, filename with
  | JStr d, JStr f =>
      match url with
      | JStr u => download_model u f (Some d)
      | _ =>
          let local_path := os_path_join d f in
          present <- read (fun w => os_path_exists (disk w) local_path) ;;
          if negb present
          then raise (Exn RequestException "Invalid URL: no scheme supplied")
          else ret local_path
      end
  | _, _ => raise (Exn TypeError "expected str, bytes or os.PathLike object")
  end.

(** [POST /download] *)
Definition download (data : json) : M response :=
  url <- lift (dict_get data "url" (Ok JNull)) ;;
  filename <- lift (dict_get data "filename" (Ok JNull)) ;;
  custom_dir <- lift (dict_get data "directory" (Ok JNull)) ;;
  if negb (truthy url) || negb (truthy filename) then
    ret (error_json "Missing url or filename" 400)
  else
    try_except
      (local_path <- download_model_py url filename custom_dir ;;
       model_dir <- read MODEL_DIR ;;
       ret (jsonify [("status", JStr "downloaded");
                     ("path", JStr local_path);
                     ("directory",
                      if truthy custom_dir then custom_dir
                      else JStr model_dir)]))
      (fun e => ret (error_json (exn_str e) 500)).

End MoreViews.

(* ================================================================== *)
(** ** More vocabulary *)

(** The world after a successful [load_model]. *)
Definition loaded {RT : Runtime}
  (w : World RT) (h : Handle) (n : json) (p : string) : World RT :=
  set_current_model_path (Some p) (set_current_model n (set_pipe (Some h) w)).

(** [data.get(key)] on an object: the value, [None] when the key is
    missing. *)
Definition field (kv : list (string * json)) (key : string) : json :=
  match assoc key kv with
  | Some v => v
  | None => JNull
  end.

(** The components of a path, cut at the slashes. *)
Fixpoint split_slash (p : string) : list string :=
  match p with
  | EmptyString => [EmptyString]
  | String c r =>
      if Ascii.eqb c slash then EmptyString :: split_slash r
      else
        match split_slash r with
        | x :: xs => String c x :: xs
        | [] => [String c EmptyString]
        end
  end.

(** A component that names an entry: not empty, not [.] and not [..]. *)
Definition proper (c : string) : bool :=
  negb (String.eqb c "") && negb (String.eqb c ".")
  && negb (String.eqb c "..").

(** A path in the one spelling under which the disk knows it: every
    component proper (after the leading slash of an absolute path), so no
    doubled or trailing slash and no [.] or [..]; not the root. *)
Definition canonical (p : string) : bool :=
  negb (all_slashes p) &&
  match split_slash p with
  | EmptyString :: x :: rest => forallb proper (x :: rest)
  | comps => forallb proper comps
  end.

(** A file name with no directory part. *)
Definition plain_name (n : string) : bool :=
  negb (has_slash n) && proper n.

(** The picture a [/generate] request gets as far as, if it does: a
    model is loaded, the body has a true prompt, the engine returns, and
    its result converts. *)
Definition picture_for {RT : Runtime} (data : json) (w : World RT)
  : option Picture :=
  match pipe w with
  | None => None
  | Some h =>
      match dict_get data "prompt" (Ok (JStr "")) with
      | Raise _ => None
      | Ok prompt =>
          if truthy prompt then
            match run_pipeline h prompt with
            | Raise _ => None
            | Ok out =>
                match first_image out with
                | Raise _ => None
                | Ok img =>
                    match to_picture img with
                    | Raise _ => None
                    | Ok pic => Some pic
                    end
                end
            end
          else None
      end
  end.

(** A directory name as the system keeps it: not empty, not the root, no
    trailing slash. *)
Definition plain_dir (d : string) : Prop :=
  all_slashes d = false /\ ends_with_slash d = false.

(** One file system has the files of the other and at least its
    directories. *)
Definition only_more_dirs (fs fs' : FS) : Prop :=
  files fs' = files fs /\ incl (dirs fs) (dirs fs').

(* ================================================================== *)
(** ** A second concrete surrounding: a disk with a root *)

Module Example2.
Import Example.

(** The root, the model directory with one model and one text file. *)
Definition fs1 : FS :=
  mkFS ["/"; "/m"]
       [("/m/a.safetensors", b "Sa"); ("/m/notes.txt", b "hi")].

Definition w1 : World rt := mkWorld "/m" None JNull None fs1 [].

(** An imaging library that cannot make a picture of any array. *)
Definition no_picture : exn := Exn TypeError "Cannot handle this data type".

Definition fragile : Runtime := {|
  Handle := string;
  Picture := bytes;
  Tensor := bytes;
  Array := bytes;
  from_single_file := engine;
  run_pipeline := fun _ _ => Ok (OutObject (ImgArray (b "raw")));
  cpu_numpy := fun t => Ok t;
  astype_uint8 := fun a => Ok a;
  fromarray := fun _ => Raise no_picture;
  png_encode := fun p => p;
  http_get := server;
  glob_dirs := fun _ _ => []
|}.

Definition select_a : list (string * json) :=
  [("model", JStr "a.safetensors")].
Definition to_new : list (string * json) := [("directory", JStr "/new")].




(** [a] is loaded, with the imaging library that makes no pictures. *)
Definition w_fragile : World fragile :=
  @mkWorld fragile "/m" (Some "/m/a.safetensors") (JStr "a.safetensors")
           (Some "/m/a.safetensors") fs1 [].

(** The first request takes a step, the failing one takes two in
    between, then the first goes on. *)
Definition one_fails : list turn := [T1; T2; T1; T1; T2; T1; T1].

End Example2.

(* ================================================================== *)
(** * Properties *)

Section Facts.
Context {RT : Runtime}.

Ltac unfold_m :=
  unfold bind, ret, raise, lift, read, modify, try_except in *.

(** ** [load_model] *)

(** Resolving the path only reads. *)
Lemma resolve_model_path_reads (n : json) (p : option string) (w w' : World RT)
      (r : result string) :
  resolve_model_path n p w = (r, w') -> w' = w.
Proof.
  unfold resolve_model_path. unfold_m.
  destruct (path_given p) as [q|].
  - destruct (os_path_exists (disk w) q); cbn; intros H; inversion H; auto.
  - destruct (py_join (MODEL_DIR w) n) as [full|e]; cbn.
    + destruct (os_path_exists (disk w) full); cbn; intros H; inversion H; auto.
    + intros H; inversion H; auto.
Qed.

(** [load_model], by cases on the path resolution and on the engine. *)
Lemma load_model_unfold (n : json) (p : option string) (w : World RT) :
  load_model n p w =
  match resolve_model_path n p w with
  | (Raise e, _) => (Raise e, w)
  | (Ok full, _) =>
      match from_single_file (disk w) full with
      | Raise e => (Raise e, w)
      | Ok h =>
          (Ok tt,
           set_current_model_path (Some full)
             (set_current_model n (set_pipe (Some h) w)))
      end
  end.
Proof.
  unfold load_model. unfold_m.
  destruct (resolve_model_path n p w) as [[full|e] w1] eqn:E;
    apply resolve_model_path_reads in E; subst w1; [|reflexivity].
  destruct (from_single_file (disk w) full); reflexivity.
Qed.

(** A [load_model] that raises has touched nothing. *)
Lemma load_model_raise_frame (n : json) (p : option string) (w w' : World RT)
      (e : exn) :
  load_model n p w = (Raise e, w') -> w' = w.
Proof.
  rewrite load_model_unfold.
  destruct (resolve_model_path n p w) as [[full|e1] w1].
  - destruct (from_single_file (disk w) full); intros H; inversion H; auto.
  - intros H; inversion H; auto.
Qed.

(** C10.  When the construction of the inference pipeline raises, the
    exception leaves [load_model] and the three globals [pipe],
    [current_model] and [current_model_path] hold what they held before
    the call: they are assigned only after the construction.  A pipeline
    that was ready is still ready, with the same handle. *)
Theorem failed_construction_keeps_pipeline
        (w : World RT) (n : json) (p : option string) (full : string) (e : exn) :
  resolve_model_path n p w = (Ok full, w) ->
  from_single_file (disk w) full = Raise e ->
  let w' := snd (load_model n p w) in
  fst (load_model n p w) = Raise e /\
  pipe w' = pipe w /\
  current_model w' = current_model w /\
  current_model_path w' = current_model_path w /\
  (ready w = true -> ready w' = true) /\
  (forall data, generate data w' = generate data w).
Proof.
  intros Hres Heng. rewrite load_model_unfold, Hres, Heng. cbn.
  repeat split; auto.
Qed.

(** ** [/select] *)

Lemma select_unfold (kv : list (string * json)) (w : World RT) :
  select (JObj kv) w =
  let n := match assoc "model" kv with Some v => v | None => JNull end in
  match load_model n None w with
  | (Ok _, w') =>
      (Ok (jsonify [("status", JStr "loaded"); ("model", n)]), w')
  | (Raise e, w') => (Ok (error_json (exn_str e) 400), w')
  end.
Proof.
  unfold select. unfold_m. cbn.
  destruct (load_model _ None w) as [[[]|e] w']; reflexivity.
Qed.

Lemma select_of_missing_path
      (w : World RT) (kv : list (string * json)) (n : string) :
  assoc "model" kv = Some (JStr n) ->
  os_path_exists (disk w) (os_path_join (MODEL_DIR w) n) = false ->
  let e := Exn FileNotFoundError
               ("Model " ++ n ++ " not found in " ++ MODEL_DIR w ++ ".") in
  load_model (JStr n) None w = (Raise e, w) /\
  flask select (JObj kv) w = (error_json (exn_str e) 400, w).
Proof.
  intros Hkey Hmiss e.
  assert (Hload : load_model (JStr n) None w = (Raise e, w)).
  { rewrite load_model_unfold. unfold resolve_model_path. unfold_m. cbn.
    rewrite Hmiss. reflexivity. }
  split; [exact Hload|].
  unfold flask. rewrite select_unfold, Hkey. cbn zeta. rewrite Hload.
  reflexivity.
Qed.


(** ** [/load_from_path] *)

(** With no [path] in the body the default of the [name] lookup,
    [os.path.basename(None)], raises before the check for a missing path
    is reached. *)
Lemma load_from_path_without_path (kv : list (string * json)) (w : World RT) :
  assoc "path" kv = None ->
  load_from_path (JObj kv) w =
  (Raise (Exn TypeError "expected str, bytes or os.PathLike object"), w).
Proof.
  intros H. unfold load_from_path. unfold_m. cbn. rewrite H. reflexivity.
Qed.

(** C2, as the code has it.  When the engine rejects the file of a
    [/select] or [/load_from_path] request, the answer is 400 with the
    engine's message and the process is exactly as before the request:
    unloaded if it was unloaded, ready with the handle it held if it was
    ready. *)
Theorem rejected_load_keeps_state
        (ep : endpoint) (data : json) (w : World RT) (e : exn) :
  engine_rejects ep data w e ->
  flask (view_of ep) data w = (error_json (exn_str e) 400, w).
Proof.
  destruct ep; cbn [engine_rejects view_of].
  - intros (kv & n & -> & Hkey & Hex & Hrej).
    unfold flask. rewrite select_unfold, Hkey. cbn zeta.
    rewrite load_model_unfold. unfold resolve_model_path. unfold_m. cbn.
    rewrite Hex. cbn. rewrite Hrej. reflexivity.
  - intros (kv & p & -> & Hkey & Hne & Hex & Hrej).
    unfold flask, load_from_path. unfold_m. cbn. rewrite Hkey. cbn.
    apply String.eqb_neq in Hne. rewrite Hne. cbn.
    rewrite load_model_unfold. unfold resolve_model_path, path_given.
    unfold_m. rewrite Hne. rewrite Hex. cbn. rewrite Hrej. reflexivity.
Qed.

(** ** [/generate] *)

(** C5, as the code has it.  A request whose prompt is empty (or absent,
    or any other false value) is answered 400 and changes nothing; the
    message is the one for the empty prompt when a model is loaded and
    the one for the missing model when none is: the check for a loaded
    model comes first. *)
Theorem empty_prompt_rejected
        (w : World RT) (kv : list (string * json)) :
  truthy (prompt_of kv) = false ->
  flask generate (JObj kv) w =
  (error_json (if ready w then "No prompt provided" else "No model loaded")
              400, w).
Proof.
  intros H. unfold flask, generate, ready. unfold_m.
  destruct (pipe w) as [h|]; [|reflexivity].
  cbn. fold (prompt_of kv). rewrite H. reflexivity.
Qed.

(** ** The file system *)

Lemma assoc_put_same (p : string) (c : bytes) (l : list (string * bytes)) :
  assoc p (put p c l) = Some c.
Proof.
  induction l as [|[q d] l IH]; cbn.
  - now rewrite String.eqb_refl.
  - destruct (String.eqb p q) eqn:E; cbn; rewrite E; auto.
Qed.

Lemma assoc_put_other (p q : string) (c : bytes) (l : list (string * bytes)) :
  q <> p -> assoc q (put p c l) = assoc q l.
Proof.
  intros Hne. apply String.eqb_neq in Hne.
  induction l as [|[k d] l IH]; cbn.
  - now rewrite Hne.
  - destruct (String.eqb p k) eqn:E; cbn.
    + apply String.eqb_eq in E. subst k. now rewrite Hne.
    + now rewrite IH.
Qed.

Lemma put_put (p : string) (c d : bytes) (l : list (string * bytes)) :
  put p c (put p d l) = put p c l.
Proof.
  induction l as [|[k x] l IH]; cbn.
  - now rewrite String.eqb_refl.
  - destruct (String.eqb p k) eqn:E; cbn; rewrite E; [reflexivity|].
    now rewrite IH.
Qed.

Lemma read_write_same (fs : FS) (p : string) (c : bytes) :
  read_file (write_file fs p c) p = Some c.
Proof. apply assoc_put_same. Qed.

Lemma read_write_other (fs : FS) (p q : string) (c : bytes) :
  q <> p -> read_file (write_file fs p c) q = read_file fs q.
Proof. apply assoc_put_other. Qed.

Lemma write_write (fs : FS) (p : string) (c d : bytes) :
  write_file (write_file fs p d) p c = write_file fs p c.
Proof. unfold write_file. cbn. now rewrite put_put. Qed.

Lemma exists_after_write (fs : FS) (p : string) (c : bytes) :
  os_path_exists (write_file fs p c) p = true.
Proof.
  unfold os_path_exists, is_file, has_key. cbn.
  rewrite assoc_put_same. apply orb_true_r.
Qed.

Lemma append_after_write (fs : FS) (p : string) (c chunk : bytes) :
  append_file (write_file fs p c) p chunk = write_file fs p (c ++ chunk).
Proof.
  unfold append_file. rewrite read_write_same. apply write_write.
Qed.

(** Writing the chunks of a download one after the other leaves their
    concatenation in the file. *)
Lemma chunks_after_write (fs : FS) (p : string) (chunks : list bytes) :
  forall c,
    fold_left (fun fs ch => append_file fs p ch) chunks (write_file fs p c)
    = write_file fs p (c ++ List.concat chunks).
Proof.
  induction chunks as [|ch chunks IH]; intros c; cbn.
  - now rewrite app_nil_r.
  - rewrite append_after_write, IH. now rewrite app_assoc.
Qed.

Lemma open_wb_ok (fs fs' : FS) (p : string) :
  open_wb fs p = Ok fs' -> fs' = write_file fs p [].
Proof.
  unfold open_wb. destruct (is_dir fs p); [discriminate|].
  destruct (_ || _); [|discriminate]. now intros [= <-].
Qed.

(** ** [download_model] *)

Lemma download_model_unfold
      (url filename : string) (model_dir : option string) (w : World RT) :
  download_model url filename model_dir w =
  let local_path := target_of w filename model_dir in
  if os_path_exists (disk w) local_path then (Ok local_path, w)
  else
    let w1 := log_request url w in
    match http_get url with
    | ConnectionFailed e => (Raise e, w1)
    | Response _ chunks broken =>
        match open_wb (disk w) local_path with
        | Raise e => (Raise e, w1)
        | Ok _ =>
            let w2 := set_disk (write_file (disk w) local_path (List.concat chunks))
                               w1 in
            match broken with
            | Some e => (Raise e, w2)
            | None => (Ok local_path, w2)
            end
        end
    end.
Proof.
  unfold download_model, target_of, write_chunks. unfold_m. cbn.
  destruct (os_path_exists (disk w) _) eqn:Hex; cbn; [reflexivity|].
  destruct (http_get url) as [e|code chunks broken]; cbn; [reflexivity|].
  destruct (open_wb (disk w) _) as [fs'|e] eqn:Hopen; cbn; [|reflexivity].
  apply open_wb_ok in Hopen. subst fs'.
  rewrite chunks_after_write. cbn.
  destruct broken; reflexivity.
Qed.

(** A download that returns has left a file at the path it returns. *)
Lemma download_model_leaves_file
      (url filename : string) (model_dir : option string)
      (w w1 : World RT) (p : string) :
  download_model url filename model_dir w = (Ok p, w1) ->
  p = target_of w filename model_dir /\
  target_of w1 filename model_dir = p /\
  os_path_exists (disk w1) p = true.
Proof.
  rewrite download_model_unfold. cbn zeta.
  destruct (os_path_exists (disk w) _) eqn:Hex.
  - intros [= <- <-]. auto.
  - destruct (http_get url) as [e|code chunks broken]; [discriminate|].
    destruct (open_wb (disk w) _); [|discriminate].
    destruct broken; [discriminate|].
    intros [= <- <-]. repeat split.
    cbn. apply exists_after_write.
Qed.

(** C3.  When the target file is already there, [download_model] sends no
    request, writes nothing and returns the path of that file; and after
    any download that returned, a further download of the same file name
    into the same directory, from whatever URL, returns the same path
    and leaves the world (the requests sent and the disk) as it was. *)
Theorem fetch_is_idempotent
        (w : World RT) (url url2 filename : string) (model_dir : option string) :
  (os_path_exists (disk w) (target_of w filename model_dir) = true ->
   download_model url filename model_dir w
   = (Ok (target_of w filename model_dir), w)) /\
  (forall p w1,
     download_model url filename model_dir w = (Ok p, w1) ->
     download_model url2 filename model_dir w1 = (Ok p, w1)).
Proof.
  split.
  - intros Hex. rewrite download_model_unfold. cbn zeta. now rewrite Hex.
  - intros p w1 H. apply download_model_leaves_file in H.
    destruct H as (_ & Ht & Hex).
    rewrite download_model_unfold. cbn zeta. rewrite Ht, Hex. reflexivity.
Qed.

(** C4, as the code has it.  [download_model] writes straight into the
    target file; there is no temporary name and no rename.  When it
    raises, the target was absent before the call and one request was
    sent; if the request itself failed or the file could not be opened,
    the disk is as before; if the body broke off, the target file exists
    and holds the chunks received until then.  The status code of the
    response is not looked at: a body that arrives whole is written to
    the target and the path is returned, whatever the status. *)
Theorem failed_fetch_leaves_partial_file
        (w : World RT) (url filename : string) (model_dir : option string) :
  let local_path := target_of w filename model_dir in
  (forall e w',
     download_model url filename model_dir w = (Raise e, w') ->
     os_path_exists (disk w) local_path = false /\
     sent w' = sent w ++ [url] /\
     match http_get url with
     | ConnectionFailed e' => e = e' /\ disk w' = disk w
     | Response _ chunks broken =>
         (open_wb (disk w) local_path = Raise e /\ disk w' = disk w) \/
         (broken = Some e /\
          os_path_exists (disk w') local_path = true /\
          read_file (disk w') local_path = Some (List.concat chunks))
     end) /\
  (forall code chunks fs',
     os_path_exists (disk w) local_path = false ->
     http_get url = Response code chunks None ->
     open_wb (disk w) local_path = Ok fs' ->
     download_model url filename model_dir w
     = (Ok local_path,
        set_disk (write_file (disk w) local_path (List.concat chunks))
                 (log_request url w))).
Proof.
  intros local_path. split.
  - intros e w'. rewrite download_model_unfold. cbn zeta. fold local_path.
    destruct (os_path_exists (disk w) local_path) eqn:Hex; [discriminate|].
    destruct (http_get url) as [e'|code chunks broken].
    + intros [= <- <-]. auto.
    + destruct (open_wb (disk w) local_path) as [fs'|e'] eqn:Hopen.
      * destruct broken as [e'|]; [|discriminate].
        intros [= <- <-]. repeat split. right. repeat split.
        -- cbn. apply exists_after_write.
        -- cbn. apply read_write_same.
      * intros [= <- <-]. repeat split. left. auto.
  - intros code chunks fs' Hex Hget Hopen.
    rewrite download_model_unfold. cbn zeta. fold local_path.
    now rewrite Hex, Hget, Hopen.
Qed.

(** ** [/generate], the successful path *)

(** C7, as the code has it.  A [/generate] request answered 200 has
    written the encoded image to the file [output.png] of the working
    directory and served the bytes of that file; nothing else has
    changed: the globals, the requests sent, the directories and every
    other file are as before. *)
Theorem generate_writes_scratch_file
        (w w' : World RT) (data : json) (r : response) :
  flask generate data w = (r, w') ->
  status r = 200 ->
  exists pic : Picture,
    payload r = FileBody "image/png" (png_encode pic) /\
    w' = set_disk (write_file (disk w) "output.png" (png_encode pic)) w /\
    read_file (disk w') "output.png" = Some (png_encode pic) /\
    (forall q, q <> "output.png" ->
               read_file (disk w') q = read_file (disk w) q).
Proof.
  unfold flask, generate. unfold_m.
  destruct (pipe w) as [h|]; [|intros [= <- <-]; discriminate].
  destruct (dict_get data "prompt" _) as [prompt|e]; cbn;
    [|intros [= <- <-]; discriminate].
  destruct (truthy prompt); cbn; [|intros [= <- <-]; discriminate].
  destruct (run_pipeline h prompt) as [out|e]; cbn;
    [|intros [= <- <-]; discriminate].
  destruct (first_image out) as [img|e]; cbn;
    [|intros [= <- <-]; discriminate].
  destruct (to_picture img) as [pic|e]; cbn;
    [|intros [= <- <-]; discriminate].
  unfold save_picture, send_file. unfold_m. cbn.
  destruct (open_wb (disk w) "output.png") as [fs'|e] eqn:Hopen; cbn;
    [|intros [= <- <-]; discriminate].
  apply open_wb_ok in Hopen. subst fs'.
  rewrite append_after_write. cbn [app]. rewrite read_write_same.
  intros [= <- <-] _. exists pic. repeat split.
  - cbn. apply read_write_same.
  - intros q Hq. cbn. now apply read_write_other.
Qed.

(** ** Paths *)

Lemma append_assoc (a c d : string) :
  ((a ++ c) ++ d)%string = (a ++ (c ++ d))%string.
Proof.
  induction a as [|x a IH]; cbn; [reflexivity|]. now rewrite IH.
Qed.

Lemma all_slashes_snoc (d : string) :
  all_slashes (d ++ "/") = all_slashes d.
Proof.
  induction d as [|c d IH]; cbn; [reflexivity|]. now rewrite IH.
Qed.

Lemma ends_with_slash_snoc (d : string) : ends_with_slash (d ++ "/") = true.
Proof.
  induction d as [|c d IH]; cbn; [reflexivity|].
  destruct (d ++ "/")%string eqn:E; [destruct d; discriminate|exact IH].
Qed.

Lemma has_slash_app (a c : string) :
  has_slash (a ++ c) = has_slash a || has_slash c.
Proof.
  induction a as [|x a IH]; cbn; [reflexivity|].
  now rewrite IH, orb_assoc.
Qed.

Lemma ends_with_slash_has_slash (d : string) :
  ends_with_slash d = true -> has_slash d = true.
Proof.
  induction d as [|c d IH]; cbn; [discriminate|].
  destruct d as [|c' d'].
  - intros ->. reflexivity.
  - intros H. rewrite (IH H). apply orb_true_r.
Qed.

(** Cutting at the last slash, when the text after it is known. *)
Lemma rsplit_slash_app (d n : string) :
  ends_with_slash d = true -> has_slash n = false ->
  rsplit_slash (d ++ n) = (d, n).
Proof.
  intros Hd Hn. induction d as [|c d IH]; [discriminate|].
  cbn [append rsplit_slash]. rewrite has_slash_app, Hn, orb_false_r.
  destruct d as [|c' d'].
  - cbn in Hd. cbn. now rewrite Hd.
  - assert (Hd' : ends_with_slash (String c' d') = true) by exact Hd.
    rewrite (ends_with_slash_has_slash _ Hd'), (IH Hd'). reflexivity.
Qed.

Lemma rsplit_slash_plain (n : string) :
  has_slash n = false -> rsplit_slash n = (EmptyString, n).
Proof.
  destruct n as [|c n]; cbn; [reflexivity|].
  intros H. apply orb_false_elim in H as [Hc Hn]. now rewrite Hn, Hc.
Qed.

(** The part after the last slash has no slash. *)
Lemma rsplit_slash_tail_plain (p : string) :
  has_slash (snd (rsplit_slash p)) = false.
Proof.
  induction p as [|c p IH]; cbn; [reflexivity|].
  destruct (has_slash p) eqn:Hp.
  - destruct (rsplit_slash p); exact IH.
  - destruct (Ascii.eqb c slash) eqn:Hc; cbn; [exact Hp|].
    now rewrite Hc, Hp.
Qed.

Lemma os_path_split_tail (p : string) :
  snd (os_path_split p) = snd (rsplit_slash p).
Proof.
  unfold os_path_split. destruct (rsplit_slash p) as [h t].
  destruct (_ && _); reflexivity.
Qed.

Lemma rstrip_slash_snoc (d : string) :
  all_slashes d = false -> rstrip_slash (d ++ "/") = rstrip_slash d.
Proof.
  induction d as [|c d IH]; cbn; [discriminate|].
  rewrite all_slashes_snoc.
  destruct (Ascii.eqb c slash && all_slashes d) eqn:E; [discriminate|].
  intros _. destruct (all_slashes d) eqn:Hd.
  - f_equal. clear IH E. induction d as [|c' d IH]; [reflexivity|].
    cbn in Hd |- *. rewrite all_slashes_snoc.
    apply andb_true_iff in Hd as [Hc' Hd]. now rewrite Hc', Hd.
  - now rewrite IH.
Qed.

(** [os.path.split] of the pattern [list_models] builds. *)
Lemma os_path_split_pattern (d t : string) :
  has_slash t = false ->
  os_path_split (d ++ "/" ++ t) = (scanned_dir d, t).
Proof.
  intros Ht. unfold os_path_split, scanned_dir.
  replace (d ++ "/" ++ t)%string with ((d ++ "/") ++ t)%string
    by apply append_assoc.
  rewrite (rsplit_slash_app _ _ (ends_with_slash_snoc d) Ht).
  rewrite all_slashes_snoc.
  assert (Hne : String.eqb (d ++ "/") "" = false) by (destruct d; reflexivity).
  rewrite Hne. cbn [negb andb].
  destruct (all_slashes d) eqn:Hd; cbn [negb]; [reflexivity|].
  now rewrite rstrip_slash_snoc.
Qed.

(** [basename] undoes the [join] that [glob] applies to a plain name. *)
Lemma basename_join (d n : string) :
  has_slash n = false -> os_path_basename (os_path_join d n) = n.
Proof.
  intros Hn. unfold os_path_basename, os_path_join.
  assert (Hs : starts_with_slash n = false).
  { destruct n; cbn in *; [reflexivity|].
    now apply orb_false_elim in Hn as [-> _]. }
  rewrite Hs. destruct (String.eqb d "") eqn:Hd; cbn [orb].
  - apply String.eqb_eq in Hd. subst d. cbn.
    now rewrite rsplit_slash_plain.
  - destruct (ends_with_slash d) eqn:He.
    + now rewrite rsplit_slash_app.
    + replace (d ++ "/" ++ n)%string with ((d ++ "/") ++ n)%string
        by apply append_assoc.
      now rewrite (rsplit_slash_app _ _ (ends_with_slash_snoc d) Hn).
Qed.

Lemma has_magic_app (a c : string) :
  has_magic (a ++ c) = has_magic a || has_magic c.
Proof.
  induction a as [|x a IH]; cbn; [reflexivity|].
  rewrite IH. now rewrite !orb_assoc.
Qed.

Lemma has_magic_rstrip (d : string) :
  has_magic d = false -> has_magic (rstrip_slash d) = false.
Proof.
  induction d as [|c d IH]; cbn; [reflexivity|].
  intros H. destruct (Ascii.eqb c slash && all_slashes d); [reflexivity|].
  cbn. apply orb_false_elim in H as [Hc Hd]. now rewrite Hc, IH.
Qed.

Lemma has_magic_scanned_dir (d : string) :
  has_magic d = false -> has_magic (scanned_dir d) = false.
Proof.
  intros H. unfold scanned_dir. destruct (all_slashes d).
  - now rewrite has_magic_app, H.
  - now apply has_magic_rstrip.
Qed.

Lemma scanned_dir_not_empty (d : string) : String.eqb (scanned_dir d) "" = false.
Proof.
  unfold scanned_dir. destruct (all_slashes d) eqn:H.
  - destruct d; reflexivity.
  - induction d as [|c d IH]; [discriminate|]. cbn in H |- *.
    destruct (Ascii.eqb c slash && all_slashes d); [discriminate|reflexivity].
Qed.

(** ** Patterns *)

Lemma fnmatch_literal (pat : string) :
  literal pat = true -> forall s, fnmatch pat s = String.eqb s pat.
Proof.
  induction pat as [|c pat IH]; intros Hl s; [reflexivity|].
  cbn in Hl. apply andb_true_iff in Hl as [Hl Hpat].
  apply andb_true_iff in Hl as [Hstar Hq].
  apply negb_true_iff in Hstar, Hq.
  cbn [fnmatch]. rewrite Hstar, Hq. cbn [orb].
  destruct s as [|x s]; [reflexivity|].
  cbn [String.eqb]. rewrite (IH Hpat), (Ascii.eqb_sym c x). 
  destruct (Ascii.eqb x c); reflexivity.
Qed.

Lemma fnmatch_star (pat s : string) :
  fnmatch (String star pat) s =
  fnmatch pat s ||
  match s with
  | EmptyString => false
  | String _ s' => fnmatch (String star pat) s'
  end.
Proof. destruct s; reflexivity. Qed.

(** [*] followed by a literal text: the names that end in that text. *)
Lemma fnmatch_star_literal (pat : string) :
  literal pat = true ->
  forall s, fnmatch (String star pat) s = has_suffix pat s.
Proof.
  intros Hl. induction s as [|c s IH]; rewrite fnmatch_star.
  - cbn [has_suffix]. now rewrite (fnmatch_literal pat Hl).
  - cbn [has_suffix]. now rewrite (fnmatch_literal pat Hl), IH.
Qed.

Lemma has_suffix_spec (suf s : string) :
  has_suffix suf s = true <-> exists stem, s = (stem ++ suf)%string.
Proof.
  split.
  - induction s as [|c s IH]; cbn [has_suffix].
    + rewrite orb_false_r. intros H. apply String.eqb_eq in H.
      exists EmptyString. exact H.
    + intros H. apply orb_true_iff in H as [H|H].
      * apply String.eqb_eq in H. exists EmptyString. exact H.
      * destruct (IH H) as [stem ->]. now exists (String c stem).
  - intros [stem ->]. induction stem as [|c stem IH].
    + destruct suf; cbn [append has_suffix]; now rewrite String.eqb_refl.
    + cbn [append has_suffix]. rewrite IH. apply orb_true_r.
Qed.

(** ** [list_models] *)

Lemma filter_filter {A} (f g : A -> bool) (l : list A) :
  filter f (filter g l) = filter (fun x => g x && f x) l.
Proof.
  induction l as [|x l IH]; cbn; [reflexivity|].
  destruct (g x); cbn; [destruct (f x)|]; now rewrite IH.
Qed.

Lemma glob1_safetensors (fs : FS) (d : string) :
  glob1 fs d "*.safetensors" = filter recognized (listdir fs d).
Proof.
  unfold glob1. change (ishidden "*.safetensors") with false.
  cbv beta iota zeta. rewrite filter_filter. apply filter_ext. intros n.
  unfold recognized. f_equal.
  exact (fnmatch_star_literal ".safetensors" eq_refl n).
Qed.

Lemma listdir_plain (fs : FS) (d : string) :
  Forall (fun n => has_slash n = false) (listdir fs d).
Proof.
  unfold listdir. induction (files fs) as [|[p c] l IH]; cbn; [constructor|].
  apply Forall_app. split; [|exact IH].
  pose proof (os_path_split_tail p) as Ht.
  destruct (os_path_split p) as [h t]. cbn in Ht. subst t.
  destruct (String.eqb h d); constructor; [|constructor].
  apply rsplit_slash_tail_plain.
Qed.

Lemma basename_join_all (d : string) (names : list string) :
  Forall (fun n => has_slash n = false) names ->
  map os_path_basename (map (os_path_join d) names) = names.
Proof.
  induction 1 as [|n names Hn _ IH]; cbn; [reflexivity|].
  now rewrite basename_join, IH.
Qed.

Lemma Forall_filter {A} (P : A -> Prop) (f : A -> bool) (l : list A) :
  Forall P l -> Forall P (filter f l).
Proof.
  induction 1 as [|x l Hx _ IH]; cbn; [constructor|].
  destruct (f x); [constructor|]; assumption.
Qed.

(** C8, as the code has it.  For a model directory whose path has no
    wildcard character, [list_models] returns the names found in that
    directory that do not start with a dot and end in [.safetensors],
    each once per entry and in the order in which the system lists the
    directory; nothing sorts them.  A directory with no entries gives the
    empty list. *)
Theorem list_models_in_listing_order (w : World RT) :
  has_magic (MODEL_DIR w) = false ->
  let entries := listdir (disk w) (scanned_dir (MODEL_DIR w)) in
  list_models w = filter recognized entries /\
  (forall n, In n (list_models w) <->
             In n entries /\ ishidden n = false /\
             exists stem, n = (stem ++ ".safetensors")%string) /\
  (entries = [] -> list_models w = []).
Proof.
  intros Hmagic entries.
  assert (Heq : list_models w = filter recognized entries).
  { unfold list_models, glob.
    change (MODEL_DIR w ++ "/*.safetensors")%string
      with (MODEL_DIR w ++ "/" ++ "*.safetensors")%string.
    rewrite (os_path_split_pattern (MODEL_DIR w) "*.safetensors" eq_refl).
    rewrite has_magic_app.
    change (has_magic ("/" ++ "*.safetensors")) with true.
    rewrite orb_true_r. cbn [negb].
    rewrite scanned_dir_not_empty, (has_magic_scanned_dir _ Hmagic).
    rewrite andb_false_r. change (has_magic "*.safetensors") with true.
    cbn [flat_map]. rewrite app_nil_r, glob1_safetensors.
    apply basename_join_all, Forall_filter, listdir_plain. }
  split; [exact Heq|]. split.
  - intros n. rewrite Heq, filter_In. unfold recognized.
    rewrite andb_true_iff, negb_true_iff, has_suffix_spec. tauto.
  - intros Hnil. now rewrite Heq, Hnil.
Qed.

(** ** Names that the directory does not list *)

Lemma os_path_split_join (d n : string) :
  all_slashes d = false -> has_slash n = false ->
  os_path_split (os_path_join d n) = (scanned_dir d, n).
Proof.
  intros Hd Hn. unfold os_path_join.
  assert (Hs : starts_with_slash n = false).
  { destruct n; cbn in *; [reflexivity|].
    now apply orb_false_elim in Hn as [-> _]. }
  assert (He : String.eqb d "" = false) by (destruct d; [discriminate|reflexivity]).
  rewrite Hs, He. cbn [orb].
  destruct (ends_with_slash d) eqn:Hends.
  - unfold os_path_split, scanned_dir.
    rewrite (rsplit_slash_app d n Hends Hn), He, Hd. reflexivity.
  - apply os_path_split_pattern. exact Hn.
Qed.

Lemma has_key_In {A} (k : string) (l : list (string * A)) :
  has_key k l = true -> exists v, In (k, v) l.
Proof.
  unfold has_key. induction l as [|[k' v] l IH]; cbn; [discriminate|].
  destruct (String.eqb k k') eqn:E.
  - apply String.eqb_eq in E. subst k'. intros _. exists v. now left.
  - intros H. destruct (IH H) as [v' Hv]. exists v'. now right.
Qed.

(** A file of the model directory is among the entries [glob] scans. *)
Lemma file_is_listed (fs : FS) (d n : string) :
  all_slashes d = false -> has_slash n = false ->
  is_file fs (os_path_join d n) = true ->
  In n (listdir fs (scanned_dir d)).
Proof.
  intros Hd Hn Hfile. destruct (has_key_In _ _ Hfile) as [c Hc].
  unfold listdir. apply in_flat_map. exists (os_path_join d n, c).
  split; [exact Hc|]. cbn [fst].
  rewrite (os_path_split_join d n Hd Hn), String.eqb_refl. now left.
Qed.

(** Missing, read on the listing: a plain name that is neither an entry nor a
    subdirectory of the model directory is answered 400 by [/select],
    and nothing changes. *)
Lemma select_unlisted_model
      (w : World RT) (kv : list (string * json)) (n : string) :
  assoc "model" kv = Some (JStr n) ->
  all_slashes (MODEL_DIR w) = false -> has_slash n = false ->
  ~ In n (listdir (disk w) (scanned_dir (MODEL_DIR w))) ->
  is_dir (disk w) (os_path_join (MODEL_DIR w) n) = false ->
  flask select (JObj kv) w
  = (error_json ("Model " ++ n ++ " not found in " ++ MODEL_DIR w ++ ".")
                400, w).
Proof.
  intros Hkey Hd Hn Hout Hdir.
  apply (select_of_missing_path w kv n Hkey).
  unfold os_path_exists. rewrite Hdir. cbn [orb].
  destruct (is_file (disk w) (os_path_join (MODEL_DIR w) n)) eqn:Hf;
    [|reflexivity].
  exfalso. apply Hout. now apply file_is_listed.
Qed.

(** ** [load_model], step by step *)

Lemma resolve_select_ok (w : World RT) (n : string) :
  os_path_exists (disk w) (os_path_join (MODEL_DIR w) n) = true ->
  resolve_model_path (JStr n) None w
  = (Ok (os_path_join (MODEL_DIR w) n), w).
Proof.
  intros H. unfold resolve_model_path. unfold_m. cbn. now rewrite H.
Qed.

(** A thread that is left alone takes its five steps and does what the
    function [load_model] does. *)
Lemma run_thread_is_load_model (n : json) (p : option string) (w : World RT) :
  run_thread 5 (AtEntry n p) w =
  match load_model n p w with
  | (Ok _, w') => (Returned, w')
  | (Raise e, w') => (Failed e, w')
  end.
Proof.
  rewrite load_model_unfold. cbn [run_thread thread_step].
  destruct (resolve_model_path n p w) as [[full|e] w1] eqn:E;
    apply resolve_model_path_reads in E; subst w1; [|reflexivity].
  cbn [run_thread thread_step].
  destruct (from_single_file (disk w) full); reflexivity.
Qed.

Lemma interleave_app (s1 s2 : list turn) (c : config RT) :
  interleave (s1 ++ s2) c = interleave s2 (interleave s1 c).
Proof. apply fold_left_app. Qed.

(** A schedule that gives all its steps to one thread runs that thread. *)
Lemma alone_T1 (k : nat) :
  forall (w : World RT) (pc1 pc2 : load_pc RT),
    interleave (repeat T1 k) (mkConfig w pc1 pc2)
    = mkConfig (snd (run_thread k pc1 w)) (fst (run_thread k pc1 w)) pc2.
Proof.
  induction k as [|k IH]; intros w pc1 pc2; [reflexivity|].
  cbn [repeat run_thread].
  change (interleave (T1 :: repeat T1 k) (mkConfig w pc1 pc2))
    with (interleave (repeat T1 k) (sched_step T1 (mkConfig w pc1 pc2))).
  unfold sched_step. cbn [shared thread1 thread2].
  destruct (thread_step pc1 w) as [pc' w']. apply IH.
Qed.

Lemma alone_T2 (k : nat) :
  forall (w : World RT) (pc1 pc2 : load_pc RT),
    interleave (repeat T2 k) (mkConfig w pc1 pc2)
    = mkConfig (snd (run_thread k pc2 w)) pc1 (fst (run_thread k pc2 w)).
Proof.
  induction k as [|k IH]; intros w pc1 pc2; [reflexivity|].
  cbn [repeat run_thread].
  change (interleave (T2 :: repeat T2 k) (mkConfig w pc1 pc2))
    with (interleave (repeat T2 k) (sched_step T2 (mkConfig w pc1 pc2))).
  unfold sched_step. cbn [shared thread1 thread2].
  destruct (thread_step pc2 w) as [pc' w']. apply IH.
Qed.

Section TwoSelects.
Variables (w : World RT) (a b : string) (ha hb : Handle).
Let pa := os_path_join (MODEL_DIR w) a.
Let pb := os_path_join (MODEL_DIR w) b.
Hypothesis a_there : os_path_exists (disk w) pa = true.
Hypothesis b_there : os_path_exists (disk w) pb = true.
Hypothesis a_loads : from_single_file (disk w) pa = Ok ha.
Hypothesis b_loads : from_single_file (disk w) pb = Ok hb.

Let Inv := unguarded_inv w a pa ha b pb hb.

(** One step of a thread that is selecting [n], in any world with the
    disk and the model directory of [w]. *)
Lemma selecting_step (n full : string) (h : Handle)
      (pc : load_pc RT) (w1 : World RT) :
  full = os_path_join (MODEL_DIR w) n ->
  os_path_exists (disk w) full = true ->
  from_single_file (disk w) full = Ok h ->
  MODEL_DIR w1 = MODEL_DIR w -> disk w1 = disk w ->
  selecting n full h pc ->
  let pc' := fst (thread_step pc w1) in
  let w2 := snd (thread_step pc w1) in
  selecting n full h pc' /\
  stage pc' = Nat.min 5 (S (stage pc)) /\
  MODEL_DIR w2 = MODEL_DIR w /\ disk w2 = disk w /\
  pipe w2 = (if Nat.eqb (stage pc) 2 then Some h else pipe w1) /\
  current_model w2
  = (if Nat.eqb (stage pc) 3 then JStr n else current_model w1) /\
  current_model_path w2
  = (if Nat.eqb (stage pc) 4 then Some full else current_model_path w1).
Proof.
  intros Hfull Hex Hload Hdir Hdisk Hpc. unfold selecting in *.
  destruct Hpc as [-> | [-> | [-> | [-> | [-> | -> ] ] ] ] ]; cbn [thread_step].
  - rewrite resolve_select_ok by (now rewrite Hdir, Hdisk, <- Hfull).
    rewrite Hdir, <- Hfull. cbn. repeat split; auto.
  - rewrite Hdisk, Hload. cbn. repeat split; auto 7.
  - cbn. repeat split; auto 7.
  - cbn. repeat split; auto 7.
  - cbn. repeat split; auto 7.
  - cbn. repeat split; auto 7.
Qed.

Lemma inv_initial : Inv (two_selects w a b).
Proof.
  unfold Inv, unguarded_inv, two_selects, selecting. cbn.
  repeat split; auto; intros [H|H]; inversion H.
Qed.

Lemma inv_step (t : turn) (c : config RT) :
  Inv c ->
  Inv (sched_step t c) /\
  stage (thread1 (sched_step t c))
  = Nat.min 5 (stage (thread1 c) + steps_of T1 [t]) /\
  stage (thread2 (sched_step t c))
  = Nat.min 5 (stage (thread2 c) + steps_of T2 [t]).
Proof.
  unfold Inv, unguarded_inv.
  intros (Hdir & Hdisk & H1 & H2 & Hp & Hn & Hf).
  assert (B1 : stage (thread1 c) <= 5)
    by (destruct (thread1 c); cbn; lia).
  assert (B2 : stage (thread2 c) <= 5)
    by (destruct (thread2 c); cbn; lia).
  destruct t; unfold sched_step; cbn [steps_of].
  - pose proof (selecting_step a pa ha (thread1 c) (shared c)
                  eq_refl a_there a_loads Hdir Hdisk H1) as S.
    cbn zeta in S.
    destruct (thread_step (thread1 c) (shared c)) as [pc' w2].
    cbn [fst snd] in S. cbn [shared thread1 thread2].
    destruct S as (Hs & Hst & Hd2 & Hk2 & Hp2 & Hn2 & Hf2).
    rewrite Hst, Hp2, Hn2, Hf2.
    repeat split; auto; try lia.
    + intros H. destruct (Nat.eqb_spec (stage (thread1 c)) 2); auto.
      apply Hp. lia.
    + intros H. destruct (Nat.eqb_spec (stage (thread1 c)) 3); auto.
      apply Hn. lia.
    + intros H. destruct (Nat.eqb_spec (stage (thread1 c)) 4); auto.
      apply Hf. lia.
  - pose proof (selecting_step b pb hb (thread2 c) (shared c)
                  eq_refl b_there b_loads Hdir Hdisk H2) as S.
    cbn zeta in S.
    destruct (thread_step (thread2 c) (shared c)) as [pc' w2].
    cbn [fst snd] in S. cbn [shared thread1 thread2].
    destruct S as (Hs & Hst & Hd2 & Hk2 & Hp2 & Hn2 & Hf2).
    rewrite Hst, Hp2, Hn2, Hf2.
    repeat split; auto; try lia.
    + intros H. destruct (Nat.eqb_spec (stage (thread2 c)) 2); auto.
      apply Hp. lia.
    + intros H. destruct (Nat.eqb_spec (stage (thread2 c)) 3); auto.
      apply Hn. lia.
    + intros H. destruct (Nat.eqb_spec (stage (thread2 c)) 4); auto.
      apply Hf. lia.
Qed.

(** Along any schedule the invariant holds, and a thread has taken as
    many of its five steps as the schedule has given it. *)
Lemma inv_interleave (sched : list turn) :
  forall c,
    Inv c ->
    Inv (interleave sched c) /\
    stage (thread1 (interleave sched c))
    = Nat.min 5 (stage (thread1 c) + steps_of T1 sched) /\
    stage (thread2 (interleave sched c))
    = Nat.min 5 (stage (thread2 c) + steps_of T2 sched).
Proof.
  induction sched as [|t sched IH]; intros c Hc.
  - cbn [interleave fold_left steps_of].
    assert (stage (thread1 c) <= 5) by (destruct (thread1 c); cbn; lia).
    assert (stage (thread2 c) <= 5) by (destruct (thread2 c); cbn; lia).
    split; [exact Hc|]. split; lia.
  - destruct (inv_step t c Hc) as (Hc' & E1 & E2).
    destruct (IH _ Hc') as (Hfin & F1 & F2).
    change (interleave (t :: sched) c)
      with (interleave sched (sched_step t c)).
    split; [exact Hfin|]. rewrite F1, F2, E1, E2.
    cbn [steps_of]. destruct t; split; lia.
Qed.

Lemma stage_finished (pc : load_pc RT) :
  stage pc = 5 -> finished pc = true.
Proof. destruct pc; cbn; intros; (reflexivity || discriminate). Qed.

Lemma unguarded_outcome (sched : list turn) :
  5 <= steps_of T1 sched -> 5 <= steps_of T2 sched ->
  let c := interleave sched (two_selects w a b) in
  both_finished c = true /\
  ready (shared c) = true /\
  (pipe (shared c) = Some ha \/ pipe (shared c) = Some hb) /\
  (current_model (shared c) = JStr a \/ current_model (shared c) = JStr b) /\
  (current_model_path (shared c) = Some pa \/
   current_model_path (shared c) = Some pb).
Proof.
  intros N1 N2 c.
  destruct (inv_interleave sched _ inv_initial) as (Hinv & E1 & E2).
  fold c in Hinv, E1, E2. cbn [two_selects thread1 thread2 stage] in E1, E2.
  assert (S1 : stage (thread1 c) = 5) by lia.
  assert (S2 : stage (thread2 c) = 5) by lia.
  unfold Inv, unguarded_inv in Hinv.
  destruct Hinv as (_ & _ & _ & _ & Hp & Hn & Hf).
  assert (P : pipe (shared c) = Some ha \/ pipe (shared c) = Some hb)
    by (apply Hp; lia).
  repeat split.
  - unfold both_finished. now rewrite !stage_finished.
  - unfold ready. destruct P as [-> | ->]; reflexivity.
  - exact P.
  - apply Hn; lia.
  - apply Hf; lia.
Qed.

(** One request after the other: the world is the one two calls of the
    function [load_model] in a row produce, everything in it the second
    call's. *)
Lemma serial_outcome :
  let c := interleave (repeat T1 5 ++ repeat T2 5) (two_selects w a b) in
  shared c
  = snd (load_model (JStr b) None (snd (load_model (JStr a) None w))) /\
  pipe (shared c) = Some hb /\
  current_model (shared c) = JStr b /\
  current_model_path (shared c) = Some pb /\
  handle_matches_descriptor (shared c) /\
  name_matches_path (shared c).
Proof.
  assert (La : load_model (JStr a) None w
               = (Ok tt, set_current_model_path (Some pa)
                           (set_current_model (JStr a)
                              (set_pipe (Some ha) w)))).
  { rewrite load_model_unfold, resolve_select_ok by exact a_there.
    fold pa. now rewrite a_loads. }
  set (wa := set_current_model_path (Some pa)
               (set_current_model (JStr a) (set_pipe (Some ha) w))) in La.
  assert (Lb : load_model (JStr b) None wa
               = (Ok tt, set_current_model_path (Some pb)
                           (set_current_model (JStr b)
                              (set_pipe (Some hb) wa)))).
  { rewrite load_model_unfold, resolve_select_ok by exact b_there.
    cbn [wa disk MODEL_DIR set_current_model_path set_current_model set_pipe].
    fold pb. now rewrite b_loads. }
  cbn zeta. rewrite La. cbn [snd]. rewrite Lb. cbn [snd].
  assert (E : interleave (repeat T1 5 ++ repeat T2 5) (two_selects w a b)
              = mkConfig (set_current_model_path (Some pb)
                            (set_current_model (JStr b)
                               (set_pipe (Some hb) wa)))
                         Returned Returned).
  { rewrite interleave_app. unfold two_selects.
    rewrite alone_T1, run_thread_is_load_model, La. cbn [fst snd].
    rewrite alone_T2, run_thread_is_load_model, Lb. reflexivity. }
  rewrite E. cbn [shared]. do 4 (split; [reflexivity|]). split.
  - unfold handle_matches_descriptor. cbn. exists pb. split; [reflexivity|].
    exact b_loads.
  - unfold name_matches_path. cbn. reflexivity.
Qed.

End TwoSelects.

(** C1, as the code has it.  Nothing serialises two [/select] requests.
    For two models that are in the model directory and that the engine
    accepts: whatever the interleaving of the two calls of [load_model],
    once each has taken its five steps both have returned, the pipeline
    is ready, and the handle, the recorded name and the recorded path
    are each the one of the two requests' (not necessarily of the same
    one); and when the requests do not overlap, the handle, the name and
    the path are all the second request's. *)
Theorem unguarded_selects
        (w : World RT) (a b : string) (ha hb : Handle) (sched : list turn) :
  let pa := os_path_join (MODEL_DIR w) a in
  let pb := os_path_join (MODEL_DIR w) b in
  os_path_exists (disk w) pa = true ->
  os_path_exists (disk w) pb = true ->
  from_single_file (disk w) pa = Ok ha ->
  from_single_file (disk w) pb = Ok hb ->
  (5 <= steps_of T1 sched -> 5 <= steps_of T2 sched ->
   let c := interleave sched (two_selects w a b) in
   both_finished c = true /\
   ready (shared c) = true /\
   (pipe (shared c) = Some ha \/ pipe (shared c) = Some hb) /\
   (current_model (shared c) = JStr a \/ current_model (shared c) = JStr b) /\
   (current_model_path (shared c) = Some pa \/
    current_model_path (shared c) = Some pb)) /\
  (let c := interleave (repeat T1 5 ++ repeat T2 5) (two_selects w a b) in
   shared c
   = snd (load_model (JStr b) None (snd (load_model (JStr a) None w))) /\
   pipe (shared c) = Some hb /\
   current_model (shared c) = JStr b /\
   current_model_path (shared c) = Some pb /\
   handle_matches_descriptor (shared c) /\
   name_matches_path (shared c)).
Proof.
  intros pa pb Ha Hb La Lb. split.
  - exact (unguarded_outcome w a b ha hb Ha Hb La Lb sched).
  - exact (serial_outcome w a b ha hb Ha Hb La Lb).
Qed.

End Facts.

(* ================================================================== *)
(** * The definitions at work on the concrete surrounding *)

Module Runs.
Import Example.

(** C10 at work: [a] is loaded, the engine refuses [junk]. *)
Lemma failed_construction_keeps_pipeline_run :
  resolve_model_path (JStr "junk.safetensors") None w_a
  = (Ok "/m/junk.safetensors", w_a) /\
  from_single_file (disk w_a) "/m/junk.safetensors" = Raise bad_weights /\
  pipe (snd (load_model (JStr "junk.safetensors") None w_a))
  = Some "/m/a.safetensors".
Proof.
  split; [reflexivity|]. split; [reflexivity|].
  destruct (failed_construction_keeps_pipeline
              w_a (JStr "junk.safetensors") None "/m/junk.safetensors"
              bad_weights eq_refl eq_refl) as (_ & Hpipe & _).
  exact Hpipe.
Defined.



Lemma engine_rejects_junk : engine_rejects Select select_junk w_a bad_weights.
Proof.
  exists [("model", JStr "junk.safetensors")], "junk.safetensors".
  repeat split.
Defined.

(** C2 as stated fails: [a] is loaded, [/select] of a file the engine
    refuses is answered 400, and the pipeline is not unloaded: it is
    still ready and still holds the handle of [a]. *)
Lemma rejected_load_stays_ready :
  engine_rejects Select select_junk w_a bad_weights /\
  status (fst (flask select select_junk w_a)) = 400 /\
  ready (snd (flask select select_junk w_a)) <> false /\
  pipe (snd (flask select select_junk w_a)) = Some "/m/a.safetensors".
Proof.
  split; [exact engine_rejects_junk|].
  split; [reflexivity|]. split; [discriminate|reflexivity].
Qed.

(** C2, amended, at work. *)
Lemma rejected_load_keeps_state_run :
  engine_rejects Select select_junk w_a bad_weights /\
  flask select select_junk w_a = (error_json "not a safetensors file" 400, w_a).
Proof.
  split; [exact engine_rejects_junk|].
  exact (rejected_load_keeps_state Select select_junk w_a bad_weights
                                   engine_rejects_junk).
Defined.

(** C5 as stated fails: with no model loaded, the empty prompt is not
    what the answer complains about. *)
Lemma empty_prompt_unloaded :
  pipe w0 = None /\
  fst (flask generate empty_prompt w0) = error_json "No model loaded" 400 /\
  fst (flask generate empty_prompt w0) <> error_json "No prompt provided" 400.
Proof.
  split; [reflexivity|]. split; [reflexivity|discriminate].
Qed.

(** C5, amended, at work. *)
Lemma empty_prompt_rejected_run :
  truthy (prompt_of [("prompt", JStr "")]) = false /\
  flask generate empty_prompt w_a = (error_json "No prompt provided" 400, w_a).
Proof.
  split; [reflexivity|].
  exact (empty_prompt_rejected w_a [("prompt", JStr "")] eq_refl).
Defined.

(** C6.  A [/load_from_path] request without [path], with or without
    [name]: [os.path.basename(None)] raises [TypeError] in the view, and
    Flask answers 500 with its error page instead of the 400 the view
    means to send two lines further down. *)
Theorem load_from_path_missing_path_is_500 :
  fst (load_from_path (req []) w0)
  = Raise (Exn TypeError "expected str, bytes or os.PathLike object") /\
  flask load_from_path (req []) w0 = (mkResponse 500 ErrorPage, w0) /\
  flask load_from_path (req [("name", JStr "my-model")]) w0
  = (mkResponse 500 ErrorPage, w0) /\
  flask load_from_path (req [("path", JStr "")]) w0
  = (error_json "No model path provided" 400, w0).
Proof. repeat split. Qed.

(** C7 as stated fails: a request answered 200 has created
    [output.png]. *)
Lemma generate_touches_disk :
  status (fst (flask generate cat_prompt w_a)) = 200 /\
  read_file (disk w_a) "output.png" = None /\
  read_file (disk (snd (flask generate cat_prompt w_a))) "output.png"
  = Some (b "PNG") /\
  disk (snd (flask generate cat_prompt w_a)) <> disk w_a.
Proof.
  split; [reflexivity|]. split; [reflexivity|]. split; [reflexivity|].
  discriminate.
Qed.

(** C7, amended, at work. *)
Lemma generate_writes_scratch_file_run :
  status (fst (flask generate cat_prompt w_a)) = 200 /\
  exists pic : bytes,
    snd (flask generate cat_prompt w_a)
    = set_disk (write_file (disk w_a) "output.png" pic) w_a.
Proof.
  split; [reflexivity|].
  destruct (generate_writes_scratch_file
              w_a (snd (flask generate cat_prompt w_a)) cat_prompt
              (fst (flask generate cat_prompt w_a)) eq_refl eq_refl)
    as (pic & _ & Hw & _).
  exists (png_encode pic). exact Hw.
Defined.

(** C3 at work: [a.safetensors] is there and is not fetched; and
    [c.safetensors], once fetched, is not fetched again. *)
Lemma fetch_is_idempotent_run :
  (os_path_exists (disk w0) (target_of w0 "a.safetensors" None) = true /\
   download_model "http://x/m.bin" "a.safetensors" None w0
   = (Ok "/m/a.safetensors", w0)) /\
  (let w1 := snd (download_model "http://x/m.bin" "c.safetensors" None w0) in
   sent w1 = ["http://x/m.bin"] /\
   download_model "http://x/other.bin" "c.safetensors" None w1
   = (Ok "/m/c.safetensors", w1)).
Proof.
  split.
  - split; [reflexivity|].
    exact (proj1 (fetch_is_idempotent w0 "http://x/m.bin" "http://x/m.bin"
                                      "a.safetensors" None) eq_refl).
  - split; [reflexivity|].
    exact (proj2 (fetch_is_idempotent w0 "http://x/m.bin" "http://x/other.bin"
                                      "c.safetensors" None)
                 "/m/c.safetensors" _ eq_refl).
Defined.

(** C4 as stated fails: the body of the download breaks off after its
    first chunk, [download_model] raises, and the target file is there
    with that chunk in it. *)
Lemma broken_fetch_leaves_file :
  fst (download_model "http://x/cut.bin" "c.safetensors" None w0)
  = Raise broken_pipe /\
  os_path_exists (disk w0) "/m/c.safetensors" = false /\
  os_path_exists
    (disk (snd (download_model "http://x/cut.bin" "c.safetensors" None w0)))
    "/m/c.safetensors" = true /\
  read_file
    (disk (snd (download_model "http://x/cut.bin" "c.safetensors" None w0)))
    "/m/c.safetensors" = Some (b "SD").
Proof. repeat split. Qed.

(** C4, amended, at work: the broken download, and a 404 whose body
    becomes the artifact. *)
Lemma failed_fetch_leaves_partial_file_run :
  (download_model "http://x/cut.bin" "c.safetensors" None w0
   = (Raise broken_pipe,
      snd (download_model "http://x/cut.bin" "c.safetensors" None w0)) /\
   sent (snd (download_model "http://x/cut.bin" "c.safetensors" None w0))
   = ["http://x/cut.bin"]) /\
  (http_get "http://x/gone.bin" = Response 404 [b "Not Found"] None /\
   fst (download_model "http://x/gone.bin" "c.safetensors" None w0)
   = Ok "/m/c.safetensors").
Proof.
  split.
  - split; [reflexivity|].
    destruct (proj1 (failed_fetch_leaves_partial_file
                       w0 "http://x/cut.bin" "c.safetensors" None)
                    broken_pipe
                    (snd (download_model "http://x/cut.bin" "c.safetensors"
                                         None w0))
                    eq_refl)
      as (_ & Hsent & _).
    exact Hsent.
  - split; [reflexivity|].
    rewrite (proj2 (failed_fetch_leaves_partial_file
                      w0 "http://x/gone.bin" "c.safetensors" None)
                   404 [b "Not Found"] _ eq_refl eq_refl eq_refl).
    reflexivity.
Defined.

(** C8 as stated fails: the directory lists [b] before [a], and so does
    [list_models]. *)
Lemma list_models_not_sorted :
  list_models w0 = ["b.safetensors"; "a.safetensors"; "junk.safetensors"] /\
  sorted_names (list_models w0) = false.
Proof. split; reflexivity. Qed.

(** C8, amended, at work. *)
Lemma list_models_in_listing_order_run :
  has_magic (MODEL_DIR w0) = false /\
  listdir (disk w0) (scanned_dir (MODEL_DIR w0))
  = ["b.safetensors"; "a.safetensors"; "junk.safetensors"] /\
  list_models w0
  = filter recognized (listdir (disk w0) (scanned_dir (MODEL_DIR w0))).
Proof.
  split; [reflexivity|]. split; [reflexivity|].
  exact (proj1 (list_models_in_listing_order w0 eq_refl)).
Defined.

(** C1 as stated fails: after both requests have returned, the handle is
    the one built from [b] while the name and the path on record are
    those of [a]; and already one request on its own, switching from [a]
    to [b], passes through a state in which the handle is [b]'s and the
    record still [a]'s. *)
Lemma unguarded_selects_mismatch :
  (both_finished (interleave overtaking race) = true /\
   pipe (shared (interleave overtaking race)) = Some "/m/b.safetensors" /\
   current_model (shared (interleave overtaking race)) = JStr "a.safetensors" /\
   current_model_path (shared (interleave overtaking race))
   = Some "/m/a.safetensors" /\
   ~ handle_matches_descriptor (shared (interleave overtaking race))) /\
  ~ handle_matches_descriptor
      (shared (interleave [T1; T1; T1]
                 (two_selects w_a "b.safetensors" "a.safetensors"))).
Proof.
  split.
  - do 4 (split; [reflexivity|]).
    intros (p & Hp & He). vm_compute in Hp. injection Hp as <-.
    vm_compute in He. discriminate He.
  - intros (p & Hp & He). vm_compute in Hp. injection Hp as <-.
    vm_compute in He. discriminate He.
Qed.

(** C1, amended, at work on the same schedule. *)
Lemma unguarded_selects_run :
  (5 <= steps_of T1 overtaking /\ 5 <= steps_of T2 overtaking) /\
  both_finished (interleave overtaking race) = true /\
  ready (shared (interleave overtaking race)) = true /\
  handle_matches_descriptor
    (shared (interleave (repeat T1 5 ++ repeat T2 5) race)).
Proof.
  pose proof (unguarded_selects
                w0 "a.safetensors" "b.safetensors"
                "/m/a.safetensors" "/m/b.safetensors" overtaking
                eq_refl eq_refl eq_refl eq_refl) as [Hany Hserial].
  split; [split; cbn; lia|].
  destruct (Hany ltac:(cbn; lia) ltac:(cbn; lia)) as (Hfin & Hready & _).
  destruct Hserial as (_ & _ & _ & _ & Hmatch & _).
  split; [exact Hfin|]. split; [exact Hready|exact Hmatch].
Defined.

End Runs.

(* ================================================================== *)
(** * Further properties of [run.py] *)

Section MoreFacts.
Context {RT : Runtime}.

Ltac run_m :=
  unfold bind, ret, raise, lift, read, modify, try_except in *.

(** ** Loading through the two endpoints *)

Lemma load_model_from_dir (w : World RT) (n : string) :
  load_model (JStr n) None w =
  let full := os_path_join (MODEL_DIR w) n in
  if os_path_exists (disk w) full then
    match from_single_file (disk w) full with
    | Ok h => (Ok tt, loaded w h (JStr n) full)
    | Raise e => (Raise e, w)
    end
  else
    (Raise (Exn FileNotFoundError
                ("Model " ++ n ++ " not found in " ++ MODEL_DIR w ++ ".")), w).
Proof.
  rewrite load_model_unfold. unfold resolve_model_path. run_m. cbn.
  destruct (os_path_exists (disk w) _); reflexivity.
Qed.

Lemma load_model_from_path (w : World RT) (name : json) (p : string) :
  p <> "" ->
  load_model name (Some p) w =
  if os_path_exists (disk w) p then
    match from_single_file (disk w) p with
    | Ok h => (Ok tt, loaded w h name p)
    | Raise e => (Raise e, w)
    end
  else
    (Raise (Exn FileNotFoundError ("Model path " ++ p ++ " not found.")), w).
Proof.
  intros Hp. apply String.eqb_neq in Hp.
  rewrite load_model_unfold. unfold resolve_model_path, path_given. run_m.
  rewrite Hp. destruct (os_path_exists (disk w) p); reflexivity.
Qed.

Lemma load_model_not_a_name (w : World RT) (v : json) :
  (forall n, v <> JStr n) ->
  load_model v None w =
  (Raise (Exn TypeError "expected str, bytes or os.PathLike object"), w).
Proof.
  intros Hv. rewrite load_model_unfold. unfold resolve_model_path. run_m.
  destruct v; try reflexivity. now destruct (Hv s).
Qed.

Lemma load_from_path_unfold
      (kv : list (string * json)) (p : string) (w : World RT) :
  assoc "path" kv = Some (JStr p) ->
  load_from_path (JObj kv) w =
  let name := match assoc "name" kv with
              | Some v => v
              | None => JStr (os_path_basename p)
              end in
  if String.eqb p "" then (Ok (error_json "No model path provided" 400), w)
  else
    match load_model name (Some p) w with
    | (Ok _, w') =>
        (Ok (jsonify [("status", JStr "loaded"); ("model", name);
                      ("path", JStr p)]), w')
    | (Raise e, w') => (Ok (error_json (exn_str e) 400), w')
    end.
Proof.
  intros Hkey. unfold load_from_path. run_m. cbn. rewrite Hkey. cbn.
  destruct (String.eqb p ""); cbn; [reflexivity|].
  destruct (load_model _ (Some p) w) as [[[]|e] w']; reflexivity.
Qed.

(** X1.  [/select] of a file that is in the model directory and that the
    engine accepts answers 200 and records the request as a whole: the
    handle is the one built from the recorded path, and the recorded
    path is the one the recorded name resolves to. *)
Theorem select_loads
        (w : World RT) (kv : list (string * json)) (n : string) (h : Handle) :
  assoc "model" kv = Some (JStr n) ->
  os_path_exists (disk w) (os_path_join (MODEL_DIR w) n) = true ->
  from_single_file (disk w) (os_path_join (MODEL_DIR w) n) = Ok h ->
  let w' := loaded w h (JStr n) (os_path_join (MODEL_DIR w) n) in
  flask select (JObj kv) w
  = (jsonify [("status", JStr "loaded"); ("model", JStr n)], w') /\
  handle_matches_descriptor w' /\ name_matches_path w'.
Proof.
  intros Hkey Hex Hload w'. split; [|split].
  - unfold flask. rewrite select_unfold, Hkey. cbn zeta.
    rewrite load_model_from_dir. cbn zeta. now rewrite Hex, Hload.
  - unfold handle_matches_descriptor. cbn.
    exists (os_path_join (MODEL_DIR w) n). auto.
  - unfold name_matches_path. cbn. reflexivity.
Qed.

(** X2.  A [/select] whose body has no [model], or has one that is not a
    string, is answered 400 with the message of the [TypeError] that
    [os.path.join] raises, and changes nothing. *)
Theorem select_without_name
        (w : World RT) (kv : list (string * json)) :
  (forall n, assoc "model" kv <> Some (JStr n)) ->
  exists msg, flask select (JObj kv) w = (error_json msg 400, w).
Proof.
  intros Hkey. unfold flask. rewrite select_unfold. cbn zeta.
  rewrite load_model_not_a_name; [eexists; reflexivity|].
  intros n Hn. apply (Hkey n). destruct (assoc "model" kv); congruence.
Qed.

(** X3.  Whatever the fields of its body, [/select] answers 200 or 400,
    never 500; on 400 the world is untouched, on 200 the pipeline is
    ready; and in both cases the disk, the model directory and the
    requests sent are as before. *)
Theorem select_answers (w : World RT) (kv : list (string * json)) :
  let r := fst (flask select (JObj kv) w) in
  let w' := snd (flask select (JObj kv) w) in
  (status r = 200 /\ ready w' = true \/ status r = 400 /\ w' = w) /\
  disk w' = disk w /\ MODEL_DIR w' = MODEL_DIR w /\ sent w' = sent w.
Proof.
  unfold flask. rewrite select_unfold. cbn zeta.
  rewrite load_model_unfold.
  destruct (resolve_model_path _ None w) as [[full|e] w1]; cbn;
    [|now auto].
  destruct (from_single_file (disk w) full); cbn; auto.
Qed.

(** X4.  [/load_from_path] with a path and no name: when the file is
    there and the engine accepts it, the answer is 200 and the model is
    recorded under the base name of the path. *)
Theorem load_from_path_names_by_basename
        (w : World RT) (kv : list (string * json)) (p : string) (h : Handle) :
  assoc "path" kv = Some (JStr p) -> assoc "name" kv = None ->
  p <> "" ->
  os_path_exists (disk w) p = true ->
  from_single_file (disk w) p = Ok h ->
  flask load_from_path (JObj kv) w
  = (jsonify [("status", JStr "loaded");
              ("model", JStr (os_path_basename p)); ("path", JStr p)],
     loaded w h (JStr (os_path_basename p)) p).
Proof.
  intros Hpath Hname Hp Hex Hload. unfold flask.
  rewrite (load_from_path_unfold kv p w Hpath), Hname. cbn zeta.
  rewrite load_model_from_path by exact Hp.
  apply String.eqb_neq in Hp. now rewrite Hp, Hex, Hload.
Qed.

(** X5.  [/load_from_path] with a path at which there is nothing is
    answered 400 with the message naming the path, whether or not a
    name is given, and changes nothing. *)
Theorem load_from_path_missing_file
        (w : World RT) (kv : list (string * json)) (p : string) :
  assoc "path" kv = Some (JStr p) -> p <> "" ->
  os_path_exists (disk w) p = false ->
  flask load_from_path (JObj kv) w
  = (error_json ("Model path " ++ p ++ " not found.") 400, w).
Proof.
  intros Hpath Hp Hex. unfold flask.
  rewrite (load_from_path_unfold kv p w Hpath). cbn zeta.
  rewrite load_model_from_path by exact Hp.
  apply String.eqb_neq in Hp. now rewrite Hp, Hex.
Qed.

Lemma join_plain_not_empty (d n : string) :
  has_slash n = false -> n <> "" -> os_path_join d n <> "".
Proof.
  intros Hn Hne. unfold os_path_join.
  assert (Hs : starts_with_slash n = false).
  { destruct n; cbn in *; [reflexivity|].
    now apply orb_false_elim in Hn as [-> _]. }
  rewrite Hs. destruct (String.eqb d "" || ends_with_slash d).
  - destruct d; cbn; [exact Hne|discriminate].
  - destruct d; discriminate.
Qed.

(** X6.  For a plain file name, [/select] of the name and
    [/load_from_path] of the path the name has in the model directory
    leave the process in the same state: both fail and change nothing,
    or both load the same file under the same name. *)
Theorem select_agrees_with_load_from_path
        (w : World RT) (kv1 kv2 : list (string * json)) (n : string) :
  has_slash n = false -> n <> "" ->
  assoc "model" kv1 = Some (JStr n) ->
  assoc "path" kv2 = Some (JStr (os_path_join (MODEL_DIR w) n)) ->
  assoc "name" kv2 = None ->
  snd (flask select (JObj kv1) w) = snd (flask load_from_path (JObj kv2) w).
Proof.
  intros Hn Hne Hmodel Hpath Hname.
  pose proof (join_plain_not_empty (MODEL_DIR w) n Hn Hne) as Hp.
  unfold flask. rewrite select_unfold, Hmodel. cbn zeta.
  rewrite (load_from_path_unfold kv2 _ w Hpath), Hname. cbn zeta.
  rewrite load_model_from_dir, (load_model_from_path _ _ _ Hp). cbn zeta.
  rewrite (basename_join _ _ Hn).
  apply String.eqb_neq in Hp. rewrite Hp.
  destruct (os_path_exists (disk w) _); [|reflexivity].
  destruct (from_single_file (disk w) _); reflexivity.
Qed.

(** ** [/generate] *)

(** What a [/generate] request does, by cases. *)
Lemma generate_cases (data : json) (w : World RT) :
  (exists msg code, (code = 400 \/ code = 500) /\
     flask generate data w = (mkResponse code msg, w)) \/
  (exists pic : Picture,
     flask generate data w
     = (mkResponse 200 (FileBody "image/png" (png_encode pic)),
        set_disk (write_file (disk w) "output.png" (png_encode pic)) w)).
Proof.
  unfold flask, generate. run_m.
  destruct (pipe w) as [h|]; [|left; eexists _, 400; split; [auto|reflexivity]].
  destruct (dict_get data "prompt" _) as [prompt|e]; cbn;
    [|left; eexists _, 500; split; [auto|reflexivity]].
  destruct (truthy prompt); cbn; [|left; eexists _, 400; split; [auto|reflexivity]].
  destruct (run_pipeline h prompt) as [out|e]; cbn;
    [|left; eexists _, 500; split; [auto|reflexivity]].
  destruct (first_image out) as [img|e]; cbn;
    [|left; eexists _, 500; split; [auto|reflexivity]].
  destruct (to_picture img) as [pic|e]; cbn;
    [|left; eexists _, 500; split; [auto|reflexivity]].
  unfold save_picture, send_file. run_m. cbn.
  destruct (open_wb (disk w) "output.png") as [fs'|e] eqn:Hopen; cbn;
    [|left; eexists _, 500; split; [auto|reflexivity]].
  apply open_wb_ok in Hopen. subst fs'.
  rewrite append_after_write. cbn [app]. rewrite read_write_same.
  right. exists pic. reflexivity.
Qed.

(** X7.  A [/generate] request that does not get as far as a picture
    (no model loaded, a body without [get], a false prompt, an engine
    that raises, an empty tuple, a result that does not convert) is
    answered 400 or 500 and has changed nothing at all: nothing is
    written before [image.save]. *)
Theorem generate_without_picture_changes_nothing
        (data : json) (w : World RT) :
  picture_for data w = None ->
  let r := fst (flask generate data w) in
  let w' := snd (flask generate data w) in
  (status r = 400 \/ status r = 500) /\ w' = w.
Proof.
  unfold picture_for, flask, generate. run_m.
  destruct (pipe w) as [h|]; [|cbn; auto].
  destruct (dict_get data "prompt" _) as [prompt|e]; cbn; [|auto].
  destruct (truthy prompt); cbn; [|auto].
  destruct (run_pipeline h prompt) as [out|e]; cbn; [|auto].
  destruct (first_image out) as [img|e]; cbn; [|auto].
  destruct (to_picture img) as [pic|e]; cbn; [discriminate|auto].
Qed.

(** X8.  Two [/generate] requests answered 200 leave one scratch file,
    holding the second image: the disk is the one before the first
    request with [output.png] set to what the second request served. *)
Theorem generate_twice_keeps_last
        (w w1 w2 : World RT) (d1 d2 : json) (r1 r2 : response) :
  flask generate d1 w = (r1, w1) -> status r1 = 200 ->
  flask generate d2 w1 = (r2, w2) -> status r2 = 200 ->
  exists img : bytes,
    payload r2 = FileBody "image/png" img /\
    w2 = set_disk (write_file (disk w) "output.png" img) w.
Proof.
  intros H1 S1 H2 S2.
  destruct (generate_cases d1 w) as [(m & c & Hc & E)|(pic1 & E)];
    rewrite E in H1; injection H1 as <- <-;
    [destruct Hc as [-> | ->]; discriminate|].
  destruct (generate_cases d2 (set_disk (write_file (disk w) "output.png"
                                                   (png_encode pic1)) w))
    as [(m & c & Hc & E2)|(pic2 & E2)];
    rewrite E2 in H2; injection H2 as <- <-;
    [destruct Hc as [-> | ->]; discriminate|].
  exists (png_encode pic2). split; [reflexivity|].
  unfold set_disk. cbn. now rewrite write_write.
Qed.

(** X9.  The conversion of the engine's result to a picture: an object
    with a [save] method is taken as it is; the conversion of an array
    fails only with the error of [Image.fromarray] on the array itself,
    the fallback of the [try] block; the conversion of a tensor fails
    only if [cpu().numpy()] fails or, again, [Image.fromarray] on the
    array it gave; any other object fails. *)
Theorem to_picture_failures :
  (forall p, to_picture (ImgPicture p) = Ok p) /\
  (forall a e, to_picture (ImgArray a) = Raise e -> fromarray a = Raise e) /\
  (forall t e, to_picture (ImgTensor t) = Raise e ->
     (exists e', cpu_numpy t = Raise e') \/
     (exists a, cpu_numpy t = Ok a /\ fromarray a = Raise e)) /\
  (exists e, to_picture ImgOther = Raise e).
Proof.
  repeat split.
  - intros a e. cbn.
    destruct (astype_uint8 a) as [a'|]; [|now cbn].
    destruct (fromarray a'); [discriminate|now cbn].
  - intros t e. cbn.
    destruct (cpu_numpy t) as [a|e0]; [|left; eauto].
    intros H. right. exists a. split; [reflexivity|].
    destruct (astype_uint8 a) as [a'|]; [|exact H].
    destruct (fromarray a'); [discriminate|exact H].
  - eexists. reflexivity.
Qed.

(** ** [download_model] and [/download] *)

Lemma download_model_cases
      (url filename : string) (model_dir : option string) (w : World RT) :
  let local_path := target_of w filename model_dir in
  (os_path_exists (disk w) local_path = true /\
   download_model url filename model_dir w = (Ok local_path, w)) \/
  (os_path_exists (disk w) local_path = false /\
   ((exists e, download_model url filename model_dir w
               = (Raise e, log_request url w)) \/
    (exists r c, download_model url filename model_dir w
                 = (r, set_disk (write_file (disk w) local_path c)
                                (log_request url w))))).
Proof.
  cbn zeta. rewrite download_model_unfold. cbn zeta.
  destruct (os_path_exists (disk w) _) eqn:Hex; [left; auto|right].
  split; [reflexivity|].
  destruct (http_get url) as [e|code chunks broken]; [left; eauto|].
  destruct (open_wb (disk w) _); [|left; eauto].
  right. destruct broken; eauto.
Qed.

(** X10.  Whatever its outcome, [download_model] leaves the pipeline
    globals, the model directory and the directories of the disk alone,
    sends at most the one request for [url], and changes no file other
    than its target; a target that was there before is not changed
    either. *)
Theorem download_model_frame
        (url filename : string) (model_dir : option string) (w : World RT) :
  let local_path := target_of w filename model_dir in
  let w' := snd (download_model url filename model_dir w) in
  MODEL_DIR w' = MODEL_DIR w /\ pipe w' = pipe w /\
  current_model w' = current_model w /\
  current_model_path w' = current_model_path w /\
  dirs (disk w') = dirs (disk w) /\
  (sent w' = sent w \/ sent w' = sent w ++ [url]) /\
  (forall q, q <> local_path \/ os_path_exists (disk w) q = true ->
             read_file (disk w') q = read_file (disk w) q).
Proof.
  cbn zeta.
  destruct (download_model_cases url filename model_dir w)
    as [[Hex ->]|[Hex [[e ->]|(r & c & ->)]]]; cbn;
    repeat split; auto.
  intros q [Hq|Hq].
  - now apply read_write_other.
  - apply read_write_other. intros ->. congruence.
Qed.

Lemma download_unfold (kv : list (string * json)) (w : World RT) :
  download (JObj kv) w =
  if negb (truthy (field kv "url")) || negb (truthy (field kv "filename"))
  then (Ok (error_json "Missing url or filename" 400), w)
  else
    match download_model_py (field kv "url") (field kv "filename")
                            (field kv "directory") w with
    | (Ok local_path, w') =>
        (Ok (jsonify [("status", JStr "downloaded");
                      ("path", JStr local_path);
                      ("directory",
                       if truthy (field kv "directory")
                       then field kv "directory"
                       else JStr (MODEL_DIR w'))]), w')
    | (Raise e, w') => (Ok (error_json (exn_str e) 500), w')
    end.
Proof.
  unfold download, field. run_m. cbn.
  destruct (negb _ || negb _); [reflexivity|].
  destruct (download_model_py _ _ _ w) as [[p|e] w']; reflexivity.
Qed.

(** X11.  A [/download] whose body lacks [url] or [filename], or has an
    empty one, is answered 400; no request is sent and nothing
    changes. *)
Theorem download_missing_fields (w : World RT) (kv : list (string * json)) :
  truthy (field kv "url") = false \/ truthy (field kv "filename") = false ->
  flask download (JObj kv) w = (error_json "Missing url or filename" 400, w).
Proof.
  intros H. unfold flask. rewrite download_unfold.
  destruct H as [-> | ->]; cbn; [reflexivity|].
  now rewrite orb_true_r.
Qed.

(** X12.  Whatever the fields of its body, [/download] answers with a
    JSON body and status 200, 400 or 500: every exception of the
    download is caught and reported, none reaches Flask. *)
Theorem download_answers_json (w : World RT) (kv : list (string * json)) :
  let r := fst (flask download (JObj kv) w) in
  (exists j, payload r = JsonBody j) /\
  (status r = 200 \/ status r = 400 \/ status r = 500).
Proof.
  unfold flask. rewrite download_unfold.
  destruct (negb _ || negb _); cbn; [eauto|].
  destruct (download_model_py _ _ _ w) as [[p|e] w']; cbn; eauto.
Qed.

(** On strings the view's call is the call of [download_model]. *)
Lemma download_model_py_strings (u f : string) (d : option string)
      (w : World RT) :
  download_model_py (JStr u) (JStr f) (json_of_option d) w
  = download_model u f d w.
Proof.
  unfold download_model_py. run_m.
  destruct d as [d|]; cbn [json_of_option]; [reflexivity|].
  rewrite !download_model_unfold. reflexivity.
Qed.

Lemma join_empty_dir (f : string) : os_path_join "" f = f.
Proof. unfold os_path_join. now destruct (starts_with_slash f). Qed.

(** X13.  [/download] with the empty string as [directory]: the empty
    string is not [None], so [download_model] joins it with the file
    name and the file is written under its bare name, in the working
    directory; it is false, so the answer reports [MODEL_DIR] as the
    directory. *)
Theorem download_into_empty_directory
        (w : World RT) (kv : list (string * json)) (u f : string)
        (code : nat) (chunks : list bytes) (fs' : FS) :
  field kv "url" = JStr u -> field kv "filename" = JStr f ->
  field kv "directory" = JStr "" ->
  u <> "" -> f <> "" ->
  os_path_exists (disk w) f = false ->
  http_get u = Response code chunks None ->
  open_wb (disk w) f = Ok fs' ->
  flask download (JObj kv) w
  = (jsonify [("status", JStr "downloaded"); ("path", JStr f);
              ("directory", JStr (MODEL_DIR w))],
     set_disk (write_file (disk w) f (List.concat chunks)) (log_request u w)).
Proof.
  intros Hu Hf Hd Hune Hfne Hex Hget Hopen.
  apply String.eqb_neq in Hune, Hfne.
  unfold flask. rewrite download_unfold, Hu, Hf, Hd. cbn [truthy].
  rewrite Hune, Hfne. cbn [negb orb].
  pose proof (download_model_py_strings u f (Some "") w) as E.
  cbn [json_of_option] in E. rewrite E.
  rewrite download_model_unfold. unfold target_of. cbn zeta.
  rewrite join_empty_dir, Hex, Hget, Hopen. reflexivity.
Qed.

(** ** A download and what follows *)

Lemma list_models_filter (w : World RT) :
  has_magic (MODEL_DIR w) = false ->
  list_models w
  = filter recognized (listdir (disk w) (scanned_dir (MODEL_DIR w))).
Proof.
  intros Hmagic. unfold list_models, glob.
  change (MODEL_DIR w ++ "/*.safetensors")%string
    with (MODEL_DIR w ++ "/" ++ "*.safetensors")%string.
  rewrite (os_path_split_pattern (MODEL_DIR w) "*.safetensors" eq_refl).
  rewrite has_magic_app.
  change (has_magic ("/" ++ "*.safetensors")) with true.
  rewrite orb_true_r. cbn [negb].
  rewrite scanned_dir_not_empty, (has_magic_scanned_dir _ Hmagic).
  rewrite andb_false_r. change (has_magic "*.safetensors") with true.
  cbn [flat_map]. rewrite app_nil_r, glob1_safetensors.
  apply basename_join_all, Forall_filter, listdir_plain.
Qed.

Lemma put_new (p : string) (c : bytes) (l : list (string * bytes)) :
  has_key p l = false -> put p c l = l ++ [(p, c)].
Proof.
  unfold has_key. induction l as [|[q d] l IH]; cbn; [reflexivity|].
  destruct (String.eqb p q); [discriminate|].
  intros H. now rewrite IH.
Qed.

Lemma listdir_new_file (fs : FS) (d n : string) (c : bytes) (dir : string) :
  all_slashes d = false -> has_slash n = false ->
  is_file fs (os_path_join d n) = false ->
  listdir (write_file fs (os_path_join d n) c) dir
  = listdir fs dir ++ (if String.eqb (scanned_dir d) dir then [n] else []).
Proof.
  intros Hd Hn Hnew. unfold listdir, write_file. cbn [files].
  rewrite (put_new _ _ _ Hnew), flat_map_app. cbn [flat_map fst].
  rewrite (os_path_split_join d n Hd Hn), app_nil_r. reflexivity.
Qed.

Lemma canonical_not_all_slashes (d : string) :
  canonical d = true -> all_slashes d = false.
Proof.
  unfold canonical. destruct (all_slashes d); [discriminate|reflexivity].
Qed.

Lemma plain_name_no_slash (n : string) :
  plain_name n = true -> has_slash n = false.
Proof.
  unfold plain_name. destruct (has_slash n); [discriminate|reflexivity].
Qed.

(** X14.  After a download into the model directory has returned, the
    listing has the names it had before and, if the file was not there
    before and its name does not start with a dot and ends in
    [.safetensors], the new name; no other name.  A file fetched under
    any other name is on disk but not listed.  (In which order the names
    come is the system's choice.) *)
Theorem download_then_list
        (w w1 : World RT) (url f p : string) :
  has_magic (MODEL_DIR w) = false -> canonical (MODEL_DIR w) = true ->
  plain_name f = true ->
  download_model url f None w = (Ok p, w1) ->
  forall x,
    In x (list_models w1) <->
    In x (list_models w) \/
    (os_path_exists (disk w) (os_path_join (MODEL_DIR w) f) = false /\
     recognized f = true /\ x = f).
Proof.
  intros Hmagic Hcan Hplain Hdl x.
  pose proof (canonical_not_all_slashes _ Hcan) as Hd.
  pose proof (plain_name_no_slash _ Hplain) as Hf.
  destruct (download_model_cases url f None w)
    as [[Hex E]|[Hex [[e E]|(r & c & E)]]];
    rewrite E in Hdl; unfold target_of in *.
  - injection Hdl as _ <-. rewrite Hex. split; [auto|].
    intros [H|(H & _)]; [exact H|discriminate H].
  - discriminate.
  - injection Hdl as _ <-. rewrite Hex.
    rewrite !list_models_filter by exact Hmagic.
    cbn [disk MODEL_DIR set_disk log_request].
    apply orb_false_elim in Hex as [_ Hfile].
    rewrite (listdir_new_file _ _ _ _ _ Hd Hf Hfile), String.eqb_refl.
    rewrite filter_app, in_app_iff. cbn [filter].
    destruct (recognized f); cbn [In]; split.
    + intros [H|[H|[]]]; auto.
    + intros [H|(_ & _ & H)]; auto.
    + intros [H|[]]; auto.
    + intros [H|(_ & H & _)]; [auto|discriminate H].
Qed.

(** X15.  A file just downloaded into the model directory can be
    selected under its name, whatever the name: [/select] does not
    answer that it is missing; it answers what the engine makes of the
    file. *)
Theorem download_then_select
        (w w1 : World RT) (url f p : string) (kv : list (string * json)) :
  download_model url f None w = (Ok p, w1) ->
  assoc "model" kv = Some (JStr f) ->
  flask select (JObj kv) w1
  = match from_single_file (disk w1) p with
    | Ok h =>
        (jsonify [("status", JStr "loaded"); ("model", JStr f)],
         loaded w1 h (JStr f) p)
    | Raise e => (error_json (exn_str e) 400, w1)
    end.
Proof.
  intros Hdl Hkey.
  destruct (download_model_leaves_file _ _ _ _ _ _ Hdl) as (_ & Ht & Hex).
  unfold target_of in Ht.
  unfold flask. rewrite select_unfold, Hkey. cbn zeta.
  rewrite load_model_from_dir. cbn zeta. rewrite Ht, Hex.
  destruct (from_single_file (disk w1) p); reflexivity.
Qed.

(** ** Directories *)

Lemma only_more_dirs_refl (fs : FS) : only_more_dirs fs fs.
Proof. split; [reflexivity|apply incl_refl]. Qed.

Lemma only_more_dirs_trans (fs1 fs2 fs3 : FS) :
  only_more_dirs fs1 fs2 -> only_more_dirs fs2 fs3 -> only_more_dirs fs1 fs3.
Proof.
  intros [F1 D1] [F2 D2]. split; [congruence|].
  eapply incl_tran; eassumption.
Qed.

Lemma mem_str_In (s : string) (l : list string) :
  mem_str s l = true <-> In s l.
Proof.
  unfold mem_str. rewrite existsb_exists. split.
  - intros (x & Hx & E). apply String.eqb_eq in E. now subst x.
  - intros H. exists s. split; [exact H|apply String.eqb_refl].
Qed.

Lemma mkdir_ok (fs fs' : FS) (name : string) :
  mkdir fs name = inr fs' ->
  fs' = mkFS (dirs fs ++ [resolve_dir name]) (files fs) /\
  os_path_exists fs (resolve_dir name) = false.
Proof.
  unfold mkdir.
  destruct (String.eqb (resolve_dir name) ""); [discriminate|].
  destruct (os_path_exists fs (resolve_dir name)); [discriminate|].
  destruct (_ || _); [now intros [= <-]|].
  destruct (is_file fs _); discriminate.
Qed.

Lemma mkdir_exist_ok_more (fs fs' : FS) (name : string) (r : option os_error) :
  mkdir_exist_ok fs name = (r, fs') -> only_more_dirs fs fs'.
Proof.
  unfold mkdir_exist_ok. destruct (mkdir fs name) as [e|fs1] eqn:E.
  - destruct (os_path_isdir fs name); intros [= _ <-];
      apply only_more_dirs_refl.
  - intros [= _ <-]. apply mkdir_ok in E as [-> _].
    split; [reflexivity|]. cbn. apply incl_appl, incl_refl.
Qed.

(** [makedirs] makes directories and nothing else, also when it fails. *)
Lemma makedirs_upto_more (depth : nat) :
  forall (fs fs' : FS) (name : string) (r : option os_error),
    makedirs_upto depth fs name = (r, fs') -> only_more_dirs fs fs'.
Proof.
  induction depth as [|d IH]; intros fs fs' name r; cbn [makedirs_upto].
  - apply mkdir_exist_ok_more.
  - destruct (makedirs_parts name) as [head tail].
    destruct (_ && _); [|apply mkdir_exist_ok_more].
    destruct (makedirs_upto d fs head) as [r1 fs1] eqn:E1.
    apply IH in E1.
    assert (K : forall r, (if String.eqb tail "." then (None, fs1)
                           else mkdir_exist_ok fs1 name) = (r, fs') ->
                          only_more_dirs fs fs').
    { intros r0. destruct (String.eqb tail ".").
      - now intros [= _ <-].
      - intros H. apply mkdir_exist_ok_more in H.
        eapply only_more_dirs_trans; eassumption. }
    destruct r1 as [[| |]|]; try (now intros [= _ <-]); apply K.
Qed.

Lemma mkdir_exist_ok_isdir (fs fs' : FS) (name : string) :
  mkdir_exist_ok fs name = (None, fs') -> os_path_isdir fs' name = true.
Proof.
  unfold mkdir_exist_ok. destruct (mkdir fs name) as [e|fs1] eqn:E.
  - destruct (os_path_isdir fs name) eqn:D; [|discriminate].
    now intros [= <-].
  - intros [= <-]. apply mkdir_ok in E as [-> _].
    unfold os_path_isdir, is_dir. cbn. apply mem_str_In, in_or_app.
    right. now left.
Qed.

(** After [makedirs] has returned the directory is there, except for a
    name whose last component is a dot, where only its parent was
    asked for. *)
Lemma makedirs_upto_isdir (depth : nat) (fs fs' : FS) (name : string) :
  makedirs_upto depth fs name = (None, fs') ->
  os_path_isdir fs' name = true \/ snd (makedirs_parts name) = ".".
Proof.
  destruct depth as [|d]; cbn [makedirs_upto].
  - intros H. left. now apply mkdir_exist_ok_isdir in H.
  - destruct (makedirs_parts name) as [head tail]. cbn [snd].
    destruct (_ && _); [|intros H; left; now apply mkdir_exist_ok_isdir in H].
    destruct (makedirs_upto d fs head) as [r1 fs1].
    assert (K : (if String.eqb tail "." then (None, fs1)
                 else mkdir_exist_ok fs1 name) = (None, fs') ->
                os_path_isdir fs' name = true \/ tail = ".").
    { destruct (String.eqb tail ".") eqn:T.
      - intros _. right. now apply String.eqb_eq.
      - intros H. left. now apply mkdir_exist_ok_isdir in H. }
    destruct r1 as [[| |]|]; try discriminate; exact K.
Qed.

(** A path that is a file and not a directory is not made one. *)
Lemma makedirs_upto_keeps_file (depth : nat) :
  forall (fs fs' : FS) (name q : string) (r : option os_error),
    makedirs_upto depth fs name = (r, fs') ->
    is_file fs q = true -> is_dir fs q = false -> is_dir fs' q = false.
Proof.
  assert (M : forall fs fs' name q r,
             mkdir_exist_ok fs name = (r, fs') ->
             is_file fs q = true -> is_dir fs q = false ->
             is_dir fs' q = false).
  { intros fs fs' name q r. unfold mkdir_exist_ok.
    destruct (mkdir fs name) as [e|fs1] eqn:E.
    - destruct (os_path_isdir fs name); now intros [= _ <-].
    - intros [= _ <-] Hf Hd. apply mkdir_ok in E as [-> Hfree].
      unfold is_dir in *. cbn. unfold mem_str in *.
      rewrite existsb_app, Hd. cbn. rewrite orb_false_r.
      destruct (String.eqb_spec q (resolve_dir name)) as [->|]; [|reflexivity].
      unfold os_path_exists in Hfree. now rewrite Hf, orb_true_r in Hfree. }
  induction depth as [|d IH]; intros fs fs' name q r; cbn [makedirs_upto].
  - apply M.
  - destruct (makedirs_parts name) as [head tail].
    destruct (_ && _); [|apply M].
    destruct (makedirs_upto d fs head) as [r1 fs1] eqn:E1.
    intros H Hf Hd.
    pose proof (IH _ _ _ q _ E1 Hf Hd) as Hd1.
    assert (Hf1 : is_file fs1 q = true).
    { apply makedirs_upto_more in E1 as [F _]. unfold is_file. now rewrite F. }
    assert (K : forall r, (if String.eqb tail "." then (None, fs1)
                           else mkdir_exist_ok fs1 name) = (r, fs') ->
                          is_dir fs' q = false).
    { intros r0. destruct (String.eqb tail ".").
      - now intros [= _ <-].
      - intros H0. exact (M _ _ _ _ _ H0 Hf1 Hd1). }
    destruct r1 as [[| |]|]; try (now injection H as _ <-); eapply K, H.
Qed.

(** ** [/set_model_dir] *)

Lemma set_model_dir_unfold (kv : list (string * json)) (w : World RT) :
  flask_os set_model_dir (JObj kv) w =
  if negb (truthy (field kv "directory")) then
    (error_json "No directory provided" 400, w)
  else
    match field kv "directory" with
    | JStr d =>
        match makedirs (disk w) d with
        | (Some _, fs') => (mkResponse 500 ErrorPage, set_disk fs' w)
        | (None, fs') =>
            (jsonify [("status", JStr "updated"); ("model_dir", JStr d);
                      ("message", JStr ("Model directory updated to " ++ d))],
             set_MODEL_DIR d (set_disk fs' w))
        end
    | _ => (mkResponse 500 ErrorPage, w)
    end.
Proof.
  unfold flask_os, set_model_dir, field. cbn.
  destruct (assoc "directory" kv) as [v|]; [|reflexivity].
  destruct (truthy v) eqn:T; cbn [negb]; [|reflexivity].
  destruct v; try reflexivity.
  destruct (makedirs (disk w) s) as [[e|] fs']; reflexivity.
Qed.

(** X16.  A [/set_model_dir] whose body has no [directory], or an empty
    one, is answered 400 and changes nothing. *)
Theorem set_model_dir_missing (w : World RT) (kv : list (string * json)) :
  truthy (field kv "directory") = false ->
  flask_os set_model_dir (JObj kv) w
  = (error_json "No directory provided" 400, w).
Proof. intros H. rewrite set_model_dir_unfold, H. reflexivity. Qed.

(** X17.  Whatever its outcome, [/set_model_dir] leaves the pipeline (the
    handle, the recorded name and path), the requests sent and every
    file alone, and the disk keeps all its directories; the model
    directory becomes the one asked for when the answer is 200 and stays
    what it was otherwise. *)
Theorem set_model_dir_frame (w : World RT) (kv : list (string * json)) :
  let r := fst (flask_os set_model_dir (JObj kv) w) in
  let w' := snd (flask_os set_model_dir (JObj kv) w) in
  pipe w' = pipe w /\ current_model w' = current_model w /\
  current_model_path w' = current_model_path w /\ sent w' = sent w /\
  only_more_dirs (disk w) (disk w') /\
  (status r = 200 -> field kv "directory" = JStr (MODEL_DIR w')) /\
  (status r <> 200 -> MODEL_DIR w' = MODEL_DIR w).
Proof.
  rewrite set_model_dir_unfold.
  assert (Same : forall body,
             let r := mkResponse (if Nat.eqb (status body) 200 then 500
                                  else status body) (payload body) in
             pipe w = pipe w /\ current_model w = current_model w /\
             current_model_path w = current_model_path w /\
             sent w = sent w /\ only_more_dirs (disk w) (disk w) /\
             (status r = 200 -> field kv "directory" = JStr (MODEL_DIR w)) /\
             (status r <> 200 -> MODEL_DIR w = MODEL_DIR w)).
  { intros body. cbn. repeat split; auto using incl_refl.
    destruct (Nat.eqb_spec (status body) 200); [discriminate|contradiction]. }
  destruct (truthy (field kv "directory")); cbn [negb];
    [|exact (Same (error_json "No directory provided" 400))].
  destruct (field kv "directory") as [| | |d| |];
    try exact (Same (mkResponse 500 ErrorPage)).
  destruct (makedirs (disk w) d) as [[e|] fs'] eqn:E;
    apply makedirs_upto_more in E as [F D]; cbn; repeat split; auto.
  - intros H. discriminate H.
  - intros H. now destruct H.
Qed.


Lemma rstrip_plain (d : string) :
  ends_with_slash d = false -> rstrip_slash d = d.
Proof.
  induction d as [|c d IH]; [reflexivity|]. cbn [rstrip_slash].
  destruct d as [|c' d'].
  - cbn. intros ->. reflexivity.
  - intros H. assert (H' : ends_with_slash (String c' d') = false) by exact H.
    rewrite (IH H').
    destruct (all_slashes (String c' d')) eqn:A; [|now rewrite andb_false_r].
    exfalso. clear IH H. revert c' H' A.
    induction d' as [|x d' IHd]; intros c' H' A; cbn in *.
    + rewrite andb_true_r in A. congruence.
    + apply andb_true_iff in A as [_ A]. apply (IHd x); assumption.
Qed.

Lemma resolve_plain (d : string) : plain_dir d -> resolve_dir d = d.
Proof.
  intros [A E]. unfold resolve_dir. rewrite A. now apply rstrip_plain.
Qed.

Lemma rsplit_tail_not_empty (d : string) :
  d <> "" -> ends_with_slash d = false -> snd (rsplit_slash d) <> "".
Proof.
  induction d as [|c d IH]; [congruence|]. intros _ E.
  cbn [rsplit_slash]. destruct (has_slash d) eqn:S.
  - assert (Hd : d <> "") by (destruct d; [discriminate|congruence]).
    assert (E' : ends_with_slash d = false)
      by (destruct d; [congruence|exact E]).
    specialize (IH Hd E'). destruct (rsplit_slash d). exact IH.
  - destruct (Ascii.eqb c slash) eqn:C; cbn [snd]; [|discriminate].
    destruct d; [|discriminate]. cbn in E. congruence.
Qed.

Lemma makedirs_parts_plain (d : string) :
  plain_dir d -> makedirs_parts d = os_path_split d /\
                 snd (os_path_split d) <> "".
Proof.
  intros [A E]. unfold makedirs_parts.
  assert (Hd : d <> "") by (destruct d; [discriminate|congruence]).
  pose proof (rsplit_tail_not_empty d Hd E) as T.
  rewrite <- os_path_split_tail in T.
  destruct (os_path_split d) as [head tail]. cbn [snd] in *.
  apply String.eqb_neq in T. rewrite T. split; [reflexivity|].
  now apply String.eqb_neq.
Qed.

(** [makedirs] on a name whose parent is there: one [mkdir]. *)
Lemma makedirs_one_level (fs : FS) (d : string) :
  plain_dir d ->
  os_path_dirname d = "" \/ os_path_exists fs (os_path_dirname d) = true ->
  makedirs fs d = mkdir_exist_ok fs d.
Proof.
  intros P Hparent. unfold makedirs.
  destruct (String.length d) eqn:L; [reflexivity|]. cbn [makedirs_upto].
  destruct (makedirs_parts_plain d P) as [-> T].
  unfold os_path_dirname in Hparent.
  destruct (os_path_split d) as [head tail]. cbn [fst snd] in *.
  destruct Hparent as [-> | ->]; [reflexivity|].
  cbn [negb]. now rewrite andb_false_r.
Qed.

(** X19.  [/set_model_dir] with the name of a directory that does not
    exist, below a directory that does (or directly in the working
    directory): the directory is made, as the last of the disk's
    directories, the model directory is set to it, and the answer is
    200. *)
Theorem set_model_dir_creates
        (w : World RT) (kv : list (string * json)) (d : string) :
  field kv "directory" = JStr d -> plain_dir d ->
  os_path_exists (disk w) d = false ->
  os_path_dirname d = "" \/ is_dir (disk w) (os_path_dirname d) = true ->
  flask_os set_model_dir (JObj kv) w
  = (jsonify [("status", JStr "updated"); ("model_dir", JStr d);
              ("message", JStr ("Model directory updated to " ++ d))],
     set_MODEL_DIR d
       (set_disk (mkFS (dirs (disk w) ++ [d]) (files (disk w))) w)).
Proof.
  intros Hd P Hfree Hparent.
  assert (Hne : String.eqb d "" = false)
    by (destruct P as [A _]; destruct d; [discriminate|reflexivity]).
  rewrite set_model_dir_unfold, Hd. cbn [truthy]. rewrite Hne. cbn [negb].
  rewrite makedirs_one_level; [|exact P|].
  - unfold mkdir_exist_ok, mkdir. rewrite (resolve_plain d P), Hne, Hfree.
    destruct Hparent as [-> | ->]; [reflexivity|].
    now rewrite orb_true_r.
  - destruct Hparent as [H|H]; [now left|right].
    unfold os_path_exists. now rewrite H.
Qed.

(** X20.  [/set_model_dir] with the name of a directory that exists, its
    parent too: the disk is not touched, the model directory is set to
    it, the answer is 200; so repeating a request that made the
    directory changes nothing more. *)
Theorem set_model_dir_existing
        (w : World RT) (kv : list (string * json)) (d : string) :
  field kv "directory" = JStr d -> plain_dir d ->
  is_dir (disk w) d = true ->
  os_path_dirname d = "" \/ is_dir (disk w) (os_path_dirname d) = true ->
  flask_os set_model_dir (JObj kv) w
  = (jsonify [("status", JStr "updated"); ("model_dir", JStr d);
              ("message", JStr ("Model directory updated to " ++ d))],
     set_MODEL_DIR d w).
Proof.
  intros Hd P Hdir Hparent.
  assert (Hne : String.eqb d "" = false)
    by (destruct P as [A _]; destruct d; [discriminate|reflexivity]).
  rewrite set_model_dir_unfold, Hd. cbn [truthy]. rewrite Hne. cbn [negb].
  rewrite makedirs_one_level; [|exact P|].
  - unfold mkdir_exist_ok, mkdir, os_path_isdir.
    rewrite (resolve_plain d P), Hne.
    unfold os_path_exists. rewrite Hdir. reflexivity.
  - destruct Hparent as [H|H]; [now left|right].
    unfold os_path_exists. now rewrite H.
Qed.

(** X21.  [/set_model_dir] with the path of a file: [makedirs] raises,
    nothing catches it, the answer is 500 with Flask's error page, and
    the model directory and the files stay as they were. *)
Theorem set_model_dir_blocked_by_file
        (w : World RT) (kv : list (string * json)) (d : string) :
  field kv "directory" = JStr d -> d <> "" ->
  is_file (disk w) (resolve_dir d) = true ->
  is_dir (disk w) (resolve_dir d) = false ->
  snd (makedirs_parts d) <> "." ->
  let r := fst (flask_os set_model_dir (JObj kv) w) in
  let w' := snd (flask_os set_model_dir (JObj kv) w) in
  r = mkResponse 500 ErrorPage /\ MODEL_DIR w' = MODEL_DIR w /\
  files (disk w') = files (disk w).
Proof.
  intros Hd Hne Hfile Hnodir Hdot.
  apply String.eqb_neq in Hne.
  rewrite set_model_dir_unfold, Hd. cbn [truthy]. rewrite Hne. cbn [negb].
  destruct (makedirs (disk w) d) as [[e|] fs'] eqn:E.
  - cbn. apply makedirs_upto_more in E as [F _]. auto.
  - exfalso. unfold makedirs in E.
    pose proof (makedirs_upto_keeps_file _ _ _ _ _ _ E Hfile Hnodir) as K.
    apply makedirs_upto_isdir in E as [E|E]; [|contradiction].
    unfold os_path_isdir in E. congruence.
Qed.

(** ** The depth of [makedirs] *)

Lemma rsplit_slash_concat (p : string) :
  (fst (rsplit_slash p) ++ snd (rsplit_slash p))%string = p.
Proof.
  induction p as [|c p IH]; [reflexivity|]. cbn [rsplit_slash].
  destruct (has_slash p).
  - destruct (rsplit_slash p) as [h t]. cbn in *. now rewrite IH.
  - destruct (Ascii.eqb c slash); reflexivity.
Qed.

Lemma length_append (a c : string) :
  String.length (a ++ c) = String.length a + String.length c.
Proof. induction a as [|x a IH]; cbn; [reflexivity|]. now rewrite IH. Qed.

Lemma rstrip_slash_shorter (p : string) :
  String.length (rstrip_slash p) <= String.length p.
Proof.
  induction p as [|c p IH]; cbn; [lia|].
  destruct (_ && _); cbn; lia.
Qed.

Lemma os_path_split_lengths (p : string) :
  String.length (fst (os_path_split p)) + String.length (snd (os_path_split p))
  <= String.length p.
Proof.
  unfold os_path_split.
  pose proof (rsplit_slash_concat p) as E.
  destruct (rsplit_slash p) as [h t]. cbn [fst snd] in E.
  rewrite <- E, length_append.
  destruct (_ && _); cbn [fst snd]; [|lia].
  pose proof (rstrip_slash_shorter h). lia.
Qed.

(** The name [makedirs] calls itself on is shorter than its own. *)
Lemma makedirs_parts_shorter (name : string) :
  snd (makedirs_parts name) <> "" ->
  String.length (fst (makedirs_parts name)) < String.length name.
Proof.
  unfold makedirs_parts.
  pose proof (os_path_split_lengths name) as L1.
  destruct (os_path_split name) as [head tail]. cbn [fst snd] in L1.
  destruct (String.eqb tail "") eqn:T.
  - pose proof (os_path_split_lengths head) as L2.
    destruct (os_path_split head) as [h2 t2]. cbn [fst snd] in *.
    intros Ht. destruct t2; [congruence|]. cbn in L2. lia.
  - cbn [fst snd]. intros _. destruct tail; [discriminate|]. cbn in L1. lia.
Qed.

Lemma makedirs_upto_S (d : nat) (fs : FS) (name : string) :
  makedirs_upto (S d) fs name =
  let (head, tail) := makedirs_parts name in
  if negb (String.eqb head "") && negb (String.eqb tail "")
     && negb (os_path_exists fs head)
  then
    match makedirs_upto d fs head with
    | (Some EEXIST, fs1) | (None, fs1) =>
        if String.eqb tail "." then (None, fs1)
        else mkdir_exist_ok fs1 name
    | (Some e, fs1) => (Some e, fs1)
    end
  else mkdir_exist_ok fs name.
Proof. reflexivity. Qed.

(** A bound of at least the length of the name is never reached: the
    result does not depend on it. *)
Lemma makedirs_depth (d : nat) :
  forall (fs : FS) (name : string),
    String.length name <= d ->
    makedirs_upto d fs name = makedirs fs name.
Proof.
  assert (Step : forall k fs name,
             String.length name <= k ->
             makedirs_upto (S k) fs name = makedirs_upto k fs name).
  { induction k as [|k IH]; intros fs name L.
    - destruct name; [reflexivity|cbn in L; lia].
    - rewrite (makedirs_upto_S (S k)), (makedirs_upto_S k).
      pose proof (makedirs_parts_shorter name) as Sh.
      destruct (makedirs_parts name) as [head tail]. cbn [fst snd] in Sh.
      destruct (negb (String.eqb head "")); [|reflexivity].
      destruct (String.eqb tail "") eqn:T; [reflexivity|].
      cbn [negb andb].
      destruct (negb (os_path_exists fs head)); [|reflexivity].
      apply String.eqb_neq in T. specialize (Sh T).
      rewrite (IH fs head) by lia. reflexivity. }
  intros fs name L. unfold makedirs.
  induction L as [|d L IH]; [reflexivity|].
  rewrite Step by exact L. exact IH.
Qed.

(** ** Concurrent requests that do no harm *)

(** X22.  Two [/select] requests for the same model, interleaved in any
    way: once both have returned, the handle, the name and the path are
    those of that model, and they belong together. *)
Theorem concurrent_selects_of_one_model
        (w : World RT) (a : string) (h : Handle) (sched : list turn) :
  os_path_exists (disk w) (os_path_join (MODEL_DIR w) a) = true ->
  from_single_file (disk w) (os_path_join (MODEL_DIR w) a) = Ok h ->
  5 <= steps_of T1 sched -> 5 <= steps_of T2 sched ->
  let c := interleave sched (two_selects w a a) in
  both_finished c = true /\
  pipe (shared c) = Some h /\
  current_model (shared c) = JStr a /\
  current_model_path (shared c) = Some (os_path_join (MODEL_DIR w) a) /\
  handle_matches_descriptor (shared c) /\ name_matches_path (shared c).
Proof.
  intros Hex Hload N1 N2 c.
  destruct (inv_interleave w a a h h Hex Hex Hload Hload sched _
                           (inv_initial w a a h h))
    as (Hinv & E1 & E2).
  fold c in Hinv, E1, E2. cbn [two_selects thread1 thread2 stage] in E1, E2.
  destruct Hinv as (Hdir & Hdisk & _ & _ & Hp & Hn & Hf).
  assert (P : pipe (shared c) = Some h) by (destruct Hp; [lia|auto|auto]).
  assert (N : current_model (shared c) = JStr a)
    by (destruct Hn; [lia|auto|auto]).
  assert (F : current_model_path (shared c)
              = Some (os_path_join (MODEL_DIR w) a))
    by (destruct Hf; [lia|auto|auto]).
  repeat split; auto.
  - unfold both_finished. rewrite !stage_finished by lia. reflexivity.
  - unfold handle_matches_descriptor. rewrite P.
    exists (os_path_join (MODEL_DIR w) a). now rewrite Hdisk.
  - unfold name_matches_path. now rewrite N, F, Hdir.
Qed.

Lemma thread_step_frame (pc : load_pc RT) (w : World RT) :
  disk (snd (thread_step pc w)) = disk w /\
  MODEL_DIR (snd (thread_step pc w)) = MODEL_DIR w.
Proof.
  destruct pc; cbn; auto.
  - destruct (resolve_model_path model_name model_path w) as [[f|e] w'] eqn:E;
      apply resolve_model_path_reads in E; subst w'; auto.
  - destruct (from_single_file (disk w) full_model_path); auto.
Qed.

Lemma run_thread_finished (k : nat) (pc : load_pc RT) (w : World RT) :
  finished pc = true -> run_thread k pc w = (pc, w).
Proof.
  intros F. induction k as [|k IH]; [reflexivity|].
  cbn [run_thread]. destruct pc; try discriminate; exact IH.
Qed.

Lemma run_thread_add (i j : nat) :
  forall (pc : load_pc RT) (w : World RT),
    run_thread (i + j) pc w
    = run_thread j (fst (run_thread i pc w)) (snd (run_thread i pc w)).
Proof.
  induction i as [|i IH]; intros pc w; [reflexivity|].
  cbn [Nat.add run_thread]. destruct (thread_step pc w) as [pc' w'].
  apply IH.
Qed.

(** Five steps or more: the call of [load_model]. *)
Lemma run_thread_enough (k : nat) (n : json) (p : option string) (w : World RT) :
  5 <= k ->
  run_thread k (AtEntry n p) w = run_thread 5 (AtEntry n p) w.
Proof.
  intros K. replace k with (5 + (k - 5)) by lia.
  rewrite run_thread_add, run_thread_finished; [now destruct (run_thread 5 _ w)|].
  rewrite run_thread_is_load_model.
  destruct (load_model n p w) as [[[]|e] w']; reflexivity.
Qed.

Section OneFails.
Variables (w : World RT) (b : string).
Hypothesis b_missing :
  os_path_exists (disk w) (os_path_join (MODEL_DIR w) b) = false.

Let e_b : exn :=
  Exn FileNotFoundError ("Model " ++ b ++ " not found in " ++ MODEL_DIR w ++ ".").

(** The second thread is the request for [b]: about to start, or failed. *)
Let Quiet (c : config RT) : Prop :=
  disk (shared c) = disk w /\ MODEL_DIR (shared c) = MODEL_DIR w /\
  (thread2 c = AtEntry (JStr b) None \/ thread2 c = Failed e_b).

Lemma quiet_interleave (sched : list turn) :
  forall c,
    Quiet c ->
    let c' := interleave sched c in
    shared c' = snd (run_thread (steps_of T1 sched) (thread1 c) (shared c)) /\
    thread1 c' = fst (run_thread (steps_of T1 sched) (thread1 c) (shared c)) /\
    thread2 c' = (if Nat.eqb (steps_of T2 sched) 0 then thread2 c
                  else Failed e_b).
Proof.
  induction sched as [|t sched IH]; intros c Q; [cbn; auto|].
  change (interleave (t :: sched) c) with (interleave sched (sched_step t c)).
  destruct Q as (Hdisk & Hdir & H2).
  destruct t; cbn [steps_of Nat.add].
  - assert (Q' : Quiet (sched_step T1 c)).
    { unfold Quiet, sched_step.
      pose proof (thread_step_frame (thread1 c) (shared c)) as [F1 F2].
      destruct (thread_step (thread1 c) (shared c)) as [pc' w'].
      cbn in *. repeat split; congruence. }
    destruct (IH _ Q') as (A & B & C). cbn zeta. rewrite A, B, C.
    unfold sched_step. cbn [run_thread].
    destruct (thread_step (thread1 c) (shared c)) as [pc' w']. cbn. auto.
  - assert (S2 : sched_step T2 c = mkConfig (shared c) (thread1 c) (Failed e_b)).
    { unfold sched_step. destruct H2 as [-> | ->]; cbn [thread_step];
        [|reflexivity].
      unfold resolve_model_path, bind, read, lift, raise. cbn.
      rewrite Hdisk, Hdir, b_missing. reflexivity. }
    assert (Q' : Quiet (sched_step T2 c)).
    { rewrite S2. unfold Quiet. cbn. auto. }
    destruct (IH _ Q') as (A & B & C). cbn zeta. rewrite A, B, C, S2. cbn.
    repeat split. now destruct (Nat.eqb (steps_of T2 sched) 0).
Qed.

End OneFails.

(** X23.  A [/select] for a name that has no file, running alongside a
    [/select] for [a], interleaved in any way: the failing request
    raises its [FileNotFoundError] and the other ends exactly as if it
    had run alone, whether it succeeds or not. *)
Theorem failing_select_disturbs_nothing
        (w : World RT) (a b : string) (sched : list turn) :
  os_path_exists (disk w) (os_path_join (MODEL_DIR w) b) = false ->
  5 <= steps_of T1 sched -> 1 <= steps_of T2 sched ->
  let c := interleave sched (two_selects w a b) in
  both_finished c = true /\
  thread2 c
  = Failed (Exn FileNotFoundError
                ("Model " ++ b ++ " not found in " ++ MODEL_DIR w ++ ".")) /\
  shared c = snd (load_model (JStr a) None w) /\
  thread1 c = match fst (load_model (JStr a) None w) with
              | Ok _ => Returned
              | Raise e => Failed e
              end.
Proof.
  intros Hmiss N1 N2 c.
  destruct (quiet_interleave w b Hmiss sched (two_selects w a b))
    as (A & B & C).
  { cbn. auto. }
  fold c in A, B, C. cbn [two_selects thread1 thread2 shared] in A, B, C.
  rewrite run_thread_enough, run_thread_is_load_model in A, B by exact N1.
  destruct (Nat.eqb_spec (steps_of T2 sched) 0) as [Z|_]; [lia|].
  unfold both_finished. rewrite A, B, C.
  destruct (load_model (JStr a) None w) as [[[]|e] w']; cbn; auto.
Qed.

(** ** [/models] *)

(** X24.  After a [/select] that loaded [n], [/models] answers 200 and
    reports [n] as the current model with the path it was loaded from;
    the list of models and the model directory are the ones from before
    the load, and [/models] itself changes nothing. *)
Theorem models_after_select
        (w : World RT) (kv : list (string * json)) (n : string) (h : Handle)
        (data : json) :
  assoc "model" kv = Some (JStr n) ->
  os_path_exists (disk w) (os_path_join (MODEL_DIR w) n) = true ->
  from_single_file (disk w) (os_path_join (MODEL_DIR w) n) = Ok h ->
  let w' := snd (flask select (JObj kv) w) in
  flask models data w'
  = (jsonify [("models", JArr (map JStr (list_models w)));
              ("current", JStr n);
              ("model_dir", JStr (MODEL_DIR w));
              ("current_model_path", JStr (os_path_join (MODEL_DIR w) n))],
     w').
Proof.
  intros Hkey Hex Hload.
  assert (E : flask select (JObj kv) w
              = (jsonify [("status", JStr "loaded"); ("model", JStr n)],
                 loaded w h (JStr n) (os_path_join (MODEL_DIR w) n))).
  { unfold flask. rewrite select_unfold, Hkey. cbn zeta.
    rewrite load_model_from_dir. cbn zeta. now rewrite Hex, Hload. }
  cbn zeta. rewrite E. reflexivity.
Qed.

(** ** Bodies *)

(** X25.  A body that is valid JSON but not an object (a list, a
    string, a number, [null]) has no [get]: [/select],
    [/load_from_path], [/download] and [/set_model_dir] raise
    [AttributeError] outside any [try] and are answered 500 with
    nothing changed; [/generate] reads the body only after its check for
    a model, so it still answers 400 when none is loaded. *)
Theorem non_object_body (w : World RT) (data : json) :
  (forall kv, data <> JObj kv) ->
  flask select data w = (mkResponse 500 ErrorPage, w) /\
  flask load_from_path data w = (mkResponse 500 ErrorPage, w) /\
  flask download data w = (mkResponse 500 ErrorPage, w) /\
  flask_os set_model_dir data w = (mkResponse 500 ErrorPage, w) /\
  flask generate data w
  = (if ready w then mkResponse 500 ErrorPage
     else error_json "No model loaded" 400, w).
Proof.
  intros H.
  assert (G : dict_get data "prompt" (Ok (JStr ""))
              = Raise (Exn AttributeError "object has no attribute 'get'")).
  { destruct data; try reflexivity. now destruct (H fields). }
  repeat split.
  1-4: destruct data; try reflexivity; now destruct (H fields).
  unfold flask, generate, ready. run_m.
  destruct (pipe w); [|reflexivity]. now rewrite G.
Qed.

(** X26.  A [/load_from_path] whose body has a string as [path] is
    answered 200 or 400, never 500; on 400 the world is untouched, on
    200 the pipeline is ready; and in both cases the disk, the model
    directory and the requests sent are as before. *)
Theorem load_from_path_answers
        (w : World RT) (kv : list (string * json)) (p : string) :
  assoc "path" kv = Some (JStr p) ->
  let r := fst (flask load_from_path (JObj kv) w) in
  let w' := snd (flask load_from_path (JObj kv) w) in
  (status r = 200 /\ ready w' = true \/ status r = 400 /\ w' = w) /\
  disk w' = disk w /\ MODEL_DIR w' = MODEL_DIR w /\ sent w' = sent w.
Proof.
  intros Hpath. unfold flask.
  rewrite (load_from_path_unfold kv p w Hpath). cbn zeta.
  destruct (String.eqb p ""); [cbn; auto|].
  rewrite load_model_unfold.
  destruct (resolve_model_path _ (Some p) w) as [[full|e] w1]; cbn;
    [|now auto].
  destruct (from_single_file (disk w) full); cbn; auto.
Qed.

End MoreFacts.

(* ================================================================== *)
(** * The further properties at work *)

Module MoreRuns.
Import Example Example2.

Lemma select_loads_run :
  flask select (JObj select_a) w0
  = (jsonify [("status", JStr "loaded"); ("model", JStr "a.safetensors")],
     w_a).
Proof.
  exact (proj1 (select_loads w0 select_a "a.safetensors" "/m/a.safetensors"
                             eq_refl eq_refl eq_refl)).
Defined.

Lemma select_without_name_run :
  exists msg,
    flask select (JObj [("name", JStr "a.safetensors")]) w0
    = (error_json msg 400, w0).
Proof.
  apply (select_without_name w0 [("name", JStr "a.safetensors")]).
  intros n H. discriminate H.
Defined.

Lemma load_from_path_names_by_basename_run :
  flask load_from_path (JObj [("path", JStr "/m/a.safetensors")]) w0
  = (jsonify [("status", JStr "loaded"); ("model", JStr "a.safetensors");
              ("path", JStr "/m/a.safetensors")],
     w_a).
Proof.
  apply (load_from_path_names_by_basename
           w0 [("path", JStr "/m/a.safetensors")] "/m/a.safetensors"
           "/m/a.safetensors" eq_refl eq_refl);
    [discriminate|reflexivity|reflexivity].
Defined.

(** The request of the repository's own test of this endpoint. *)
Lemma load_from_path_missing_file_run :
  flask load_from_path
        (JObj [("path", JStr "/nonexistent/path/model.safetensors");
               ("name", JStr "test-model")]) w0
  = (error_json
       "Model path /nonexistent/path/model.safetensors not found." 400, w0).
Proof.
  apply (load_from_path_missing_file
           w0 [("path", JStr "/nonexistent/path/model.safetensors");
               ("name", JStr "test-model")]
           "/nonexistent/path/model.safetensors" eq_refl);
    [discriminate|reflexivity].
Defined.

Lemma select_agrees_with_load_from_path_run :
  snd (flask select (JObj select_a) w0)
  = snd (flask load_from_path (JObj [("path", JStr "/m/a.safetensors")]) w0).
Proof.
  apply (select_agrees_with_load_from_path
           w0 select_a [("path", JStr "/m/a.safetensors")] "a.safetensors"
           eq_refl);
    [discriminate|reflexivity|reflexivity|reflexivity].
Defined.

(** A model is loaded and the engine returns an array, but no picture
    can be made of it: 500, and no scratch file. *)
Lemma generate_without_picture_changes_nothing_run :
  picture_for cat_prompt w_fragile = None /\
  flask generate cat_prompt w_fragile = (mkResponse 500 ErrorPage, w_fragile).
Proof.
  split; [reflexivity|].
  destruct (generate_without_picture_changes_nothing
              cat_prompt w_fragile eq_refl) as [_ H].
  rewrite (surjective_pairing (flask generate cat_prompt w_fragile)).
  rewrite H. reflexivity.
Defined.

Lemma generate_twice_keeps_last_run :
  exists img : bytes,
    snd (flask generate cat_prompt (snd (flask generate cat_prompt w_a)))
    = set_disk (write_file (disk w_a) "output.png" img) w_a.
Proof.
  destruct (generate_twice_keeps_last
              w_a (snd (flask generate cat_prompt w_a))
              (snd (flask generate cat_prompt
                          (snd (flask generate cat_prompt w_a))))
              cat_prompt cat_prompt
              (fst (flask generate cat_prompt w_a))
              (fst (flask generate cat_prompt
                          (snd (flask generate cat_prompt w_a))))
              eq_refl eq_refl eq_refl eq_refl) as (img & _ & H).
  exists img. exact H.
Defined.

(** An array of which no picture can be made: the error is that of the
    fallback. *)
Lemma to_picture_failures_run :
  to_picture (RT := fragile) (ImgArray (b "raw")) = Raise no_picture /\
  fromarray (Runtime := fragile) (b "raw") = Raise no_picture.
Proof.
  split; [reflexivity|].
  exact (proj1 (proj2 (to_picture_failures (RT := fragile)))
               (b "raw") no_picture eq_refl).
Defined.

Lemma download_model_frame_run :
  "/m/a.safetensors" <> target_of w0 "c.safetensors" None /\
  read_file
    (disk (snd (download_model "http://x/cut.bin" "c.safetensors" None w0)))
    "/m/a.safetensors"
  = read_file (disk w0) "/m/a.safetensors".
Proof.
  split; [discriminate|].
  destruct (download_model_frame "http://x/cut.bin" "c.safetensors" None w0)
    as (_ & _ & _ & _ & _ & _ & H).
  apply H. left. discriminate.
Defined.

Lemma download_missing_fields_run :
  flask download (JObj [("url", JStr "http://x/m.bin")]) w0
  = (error_json "Missing url or filename" 400, w0).
Proof.
  apply (download_missing_fields w0 [("url", JStr "http://x/m.bin")]).
  right. reflexivity.
Defined.

Lemma download_into_empty_directory_run :
  flask download
        (JObj [("url", JStr "http://x/m.bin"); ("filename", JStr "m.bin");
               ("directory", JStr "")]) w1
  = (jsonify [("status", JStr "downloaded"); ("path", JStr "m.bin");
              ("directory", JStr "/m")],
     set_disk (write_file fs1 "m.bin" (b "SDweights"))
              (log_request "http://x/m.bin" w1)).
Proof.
  apply (download_into_empty_directory
           w1 [("url", JStr "http://x/m.bin"); ("filename", JStr "m.bin");
               ("directory", JStr "")]
           "http://x/m.bin" "m.bin" 200 [b "SD"; b "weights"]
           (write_file fs1 "m.bin" []) eq_refl eq_refl eq_refl);
    [discriminate|discriminate|reflexivity|reflexivity|reflexivity].
Defined.

Lemma download_then_list_run :
  In "c.safetensors"
     (list_models (snd (download_model "http://x/m.bin" "c.safetensors"
                                       None w1))) /\
  ~ In "m.bin"
       (list_models (snd (download_model "http://x/m.bin" "m.bin" None w1))).
Proof.
  split.
  - apply (download_then_list
             w1 _ "http://x/m.bin" "c.safetensors" "/m/c.safetensors"
             eq_refl eq_refl eq_refl eq_refl).
    right. repeat split.
  - intros H.
    apply (download_then_list
             w1 _ "http://x/m.bin" "m.bin" "/m/m.bin"
             eq_refl eq_refl eq_refl eq_refl) in H.
    destruct H as [[H|[]]|(_ & H & _)]; discriminate H.
Defined.

Lemma download_then_select_run :
  status
    (fst (flask select (JObj [("model", JStr "m.bin")])
                (snd (download_model "http://x/m.bin" "m.bin" None w1))))
  = 200.
Proof.
  pose proof (download_then_select
                w1 (snd (download_model "http://x/m.bin" "m.bin" None w1))
                "http://x/m.bin" "m.bin" "/m/m.bin"
                [("model", JStr "m.bin")] eq_refl eq_refl) as E.
  rewrite E. reflexivity.
Defined.

Lemma set_model_dir_missing_run :
  flask_os set_model_dir (JObj []) w1
  = (error_json "No directory provided" 400, w1).
Proof. exact (set_model_dir_missing w1 [] eq_refl). Defined.

Lemma set_model_dir_frame_run :
  status (fst (flask_os set_model_dir (JObj to_new) w1)) = 200 /\
  field to_new "directory"
  = JStr (MODEL_DIR (snd (flask_os set_model_dir (JObj to_new) w1))).
Proof.
  split; [reflexivity|].
  destruct (set_model_dir_frame w1 to_new) as (_ & _ & _ & _ & _ & H & _).
  apply H. reflexivity.
Defined.


Lemma set_model_dir_creates_run :
  dirs (disk (snd (flask_os set_model_dir (JObj to_new) w1)))
  = ["/"; "/m"; "/new"].
Proof.
  rewrite (set_model_dir_creates w1 to_new "/new" eq_refl).
  - reflexivity.
  - split; reflexivity.
  - reflexivity.
  - right. reflexivity.
Defined.

Lemma set_model_dir_existing_run :
  snd (flask_os set_model_dir (JObj [("directory", JStr "/m")]) w1)
  = set_MODEL_DIR "/m" w1.
Proof.
  rewrite (set_model_dir_existing w1 [("directory", JStr "/m")] "/m" eq_refl).
  - reflexivity.
  - split; reflexivity.
  - reflexivity.
  - right. reflexivity.
Defined.

Lemma set_model_dir_blocked_by_file_run :
  fst (flask_os set_model_dir (JObj [("directory", JStr "/m/notes.txt")]) w1)
  = mkResponse 500 ErrorPage.
Proof.
  apply (set_model_dir_blocked_by_file
           w1 [("directory", JStr "/m/notes.txt")] "/m/notes.txt" eq_refl);
    [discriminate|reflexivity|reflexivity|discriminate].
Defined.

Lemma concurrent_selects_of_one_model_run :
  (5 <= steps_of T1 overtaking /\ 5 <= steps_of T2 overtaking) /\
  pipe (shared (interleave overtaking
                           (two_selects w0 "a.safetensors" "a.safetensors")))
  = Some "/m/a.safetensors".
Proof.
  assert (N1 : 5 <= steps_of T1 overtaking) by (cbn; lia).
  assert (N2 : 5 <= steps_of T2 overtaking) by (cbn; lia).
  split; [split; assumption|].
  destruct (concurrent_selects_of_one_model
              w0 "a.safetensors" "/m/a.safetensors" overtaking
              eq_refl eq_refl N1 N2) as (_ & H & _).
  exact H.
Defined.

Lemma failing_select_disturbs_nothing_run :
  (5 <= steps_of T1 one_fails /\ 1 <= steps_of T2 one_fails) /\
  shared (interleave one_fails (two_selects w0 "a.safetensors" "zz"))
  = snd (load_model (JStr "a.safetensors") None w0).
Proof.
  assert (N1 : 5 <= steps_of T1 one_fails) by (cbn; lia).
  assert (N2 : 1 <= steps_of T2 one_fails) by (cbn; lia).
  split; [split; assumption|].
  destruct (failing_select_disturbs_nothing
              w0 "a.safetensors" "zz" one_fails eq_refl N1 N2)
    as (_ & _ & H & _).
  exact H.
Defined.

Lemma models_after_select_run :
  fst (flask models JNull (snd (flask select (JObj select_a) w0)))
  = jsonify [("models",
              JArr [JStr "b.safetensors"; JStr "a.safetensors";
                    JStr "junk.safetensors"]);
             ("current", JStr "a.safetensors");
             ("model_dir", JStr "/m");
             ("current_model_path", JStr "/m/a.safetensors")].
Proof.
  rewrite (models_after_select w0 select_a "a.safetensors" "/m/a.safetensors"
                               JNull eq_refl eq_refl eq_refl).
  reflexivity.
Defined.

Lemma non_object_body_run :
  flask select (JArr []) w0 = (mkResponse 500 ErrorPage, w0).
Proof.
  apply (non_object_body w0 (JArr [])). intros kv H. discriminate H.
Defined.

Lemma load_from_path_answers_run :
  status (fst (flask load_from_path
                     (JObj [("path", JStr "/m/junk.safetensors")]) w0)) = 400 /\
  snd (flask load_from_path
             (JObj [("path", JStr "/m/junk.safetensors")]) w0) = w0.
Proof.
  destruct (load_from_path_answers
              w0 [("path", JStr "/m/junk.safetensors")]
              "/m/junk.safetensors" eq_refl) as [[[H _]|H] _].
  - discriminate H.
  - exact H.
Defined.

End MoreRuns.
